(** * instrumentedsql: the connection decorator [WrappedConn]

    A shallow embedding of [conn.go] and [conn_go19.go].  The decorator sits
    between [database/sql] and a driver connection; every method either
    forwards to the wrapped connection or answers on its own, and the
    context-aware methods additionally open a tracing span and write a log
    record.

    The embedding keeps three things observable:
    - the value and error a method returns,
    - the state of the wrapped driver, which only driver calls change,
    - the ordered list of calls made to the outside: the tracer, the logger
      and the wrapped connection. *)

From Stdlib Require Import ZArith List.
From stdpp Require Import base decidable countable gmap strings.
Import ListNotations.

Local Open Scope Z_scope.
Local Open Scope string_scope.

(** ** Go values *)

(** [error]: a Go interface value, [None] is [nil].  The three named
    constructors are the sentinels of the Go standard library the decorator
    or a context can produce; [ErrOther] is any error of a driver or of the
    argument conversion. *)
Inductive Err : Type :=
| ErrSkip
| Canceled
| DeadlineExceeded
| ErrOther (msg : string).

Definition error : Type := option Err.

(** [driver.Value] is [interface{}], restricted by the driver contract to a
    few dynamic types. *)
Inductive Value : Type :=
| VNil
| VInt64 (n : Z)
| VBool (b : bool)
| VBytes (bs : list Byte.byte)
| VString (s : string)
| VTime (unix_nanos : Z).

Record NamedValue : Type := {
  Name : string;
  Ordinal : Z;
  NValue : Value
}.

Record TxOptions : Type := {
  Isolation : Z;
  ReadOnly : bool
}.

Definition Time : Type := Z.
Definition Duration : Type := Z.

(** ** Operation kinds and options *)

(** Modelled from the spec: the operation-kind constants ([OpSQLTxBegin] and
    the others) are declared outside [conn.go]; the spec describes them as a
    closed enumeration used for span naming and for the exclusion-set
    lookup.  Only the kinds [conn.go] mentions are listed. *)
Inductive Op : Type :=
| OpSQLPrepare
| OpSQLConnExec
| OpSQLConnQuery
| OpSQLTxBegin
| OpSQLPing
| OpSQLDummyPing.

#[global] Instance Op_eq_dec : EqDecision Op.
Proof. solve_decision. Defined.

Definition Op_code (o : Op) : nat :=
  match o with
  | OpSQLPrepare => 0 | OpSQLConnExec => 1 | OpSQLConnQuery => 2
  | OpSQLTxBegin => 3 | OpSQLPing => 4 | OpSQLDummyPing => 5
  end%nat.

Definition Op_of_code (n : nat) : option Op :=
  match n with
  | 0 => Some OpSQLPrepare | 1 => Some OpSQLConnExec | 2 => Some OpSQLConnQuery
  | 3 => Some OpSQLTxBegin | 4 => Some OpSQLPing | 5 => Some OpSQLDummyPing
  | _ => None
  end%nat.

#[global] Instance Op_countable : Countable Op.
Proof.
  apply (inj_countable Op_code Op_of_code).
  intros []; reflexivity.
Defined.

(** Modelled from the spec: the [opts] struct is declared outside [conn.go].
    The spec lists its content: a tracer handle, a logger handle, the set of
    excluded operation kinds and the flag that omits arguments.  [conn.go]
    reads the field [OmitArgs] and calls [hasOpExcluded], [GetSpan] and
    [Log] on it. *)
Record opts : Type := {
  Logger : nat;
  Tracer : nat;
  OmitArgs : bool;
  excludedOps : gset Op
}.

(** Modelled from the spec: [hasOpExcluded] is the lookup of an operation
    kind in the configured exclusion set. *)
Definition hasOpExcluded (o : opts) (op : Op) : bool :=
  bool_decide (op ∈ excludedOps o).

(** The key/value arguments of [Log] are [interface{}] values. *)
Inductive LogVal : Type :=
| LStr (s : string)
| LErr (e : error)
| LDuration (d : Duration).

Section Decorator.

(** The state of the wrapped driver (and of whatever it talks to) is opaque
    to the decorator. *)
Context {DS : Type}.

(** Successive readings of the wall clock: the [n]-th call of [time.Now]
    during a run returns [clock n]. *)
Variable clock : nat -> Time.

(** Helpers of the package that live outside [conn.go]; both are pure. *)
Variable formatArgs : list NamedValue -> string.
Variable namedValueToValue : list NamedValue -> list Value * error.

(** [context.Context].  Whether the context is done is not a property of the
    value: it is observed on the outside world at the time of the check.
    [ctx_Err ctx ds] is what [ctx.Err()] returns in world [ds]; the channel
    [ctx.Done()] is readable exactly when that is not [nil]. *)
Record Context : Type := {
  ctx_id : nat;
  ctx_Err : DS -> error
}.

(** ** Driver artefacts and their decorators

    A value of interface type [driver.Stmt] is [nil], a statement of the
    wrapped driver, or the decorator's [wrappedStmt] struct around another
    such value; likewise for transactions, results and rows.  The structs
    are declared outside [conn.go]; their fields are those of the composite
    literals in [conn.go] (an omitted [ctx] is the nil interface). *)
Inductive Stmt : Type :=
| nilStmt
| driverStmt (handle : nat)
| wrappedStmt (o : opts) (ctx : option Context) (query : string) (parent : Stmt).

Inductive Tx : Type :=
| nilTx
| driverTx (handle : nat)
| wrappedTx (o : opts) (ctx : option Context) (parent : Tx).

Inductive Result : Type :=
| nilResult
| driverResult (handle : nat)
| wrappedResult (o : opts) (ctx : option Context) (parent : Result).

Inductive Rows : Type :=
| nilRows
| driverRows (handle : nat)
| wrappedRows (o : opts) (ctx : option Context) (parent : Rows).

(** ** The wrapped connection

    [driver.Conn] has three mandatory methods; every other capability is an
    optional interface found by a type assertion, [None] when the dynamic
    type of the connection lacks it.  A method reads and updates the driver
    state and returns Go's pair of a value and an error. *)
Record Conn : Type := {
  Conn_Prepare : string -> DS -> (Stmt * error) * DS;
  Conn_Close : DS -> error * DS;
  Conn_Begin : DS -> (Tx * error) * DS;
  as_ConnBeginTx : option (Context -> TxOptions -> DS -> (Tx * error) * DS);
  as_ConnPrepareContext : option (Context -> string -> DS -> (Stmt * error) * DS);
  as_Execer : option (string -> list Value -> DS -> (Result * error) * DS);
  as_ExecerContext :
    option (Context -> string -> list NamedValue -> DS -> (Result * error) * DS);
  as_Pinger : option (Context -> DS -> error * DS);
  as_Queryer : option (string -> list Value -> DS -> (Rows * error) * DS);
  as_QueryerContext :
    option (Context -> string -> list NamedValue -> DS -> (Rows * error) * DS);
  (* the checker receives a pointer and may rewrite the named value *)
  as_NamedValueChecker : option (NamedValue -> DS -> (NamedValue * error) * DS)
}.

(** The [ok] of a type assertion [c.Parent.(driver.X)]. *)
Definition implements {A} (capability : option A) : bool :=
  match capability with Some _ => true | None => false end.

Record WrappedConn : Type := {
  wc_opts : opts;
  Parent : Conn
}.

(** ** Calls to the outside *)

Inductive Span : Type :=
| ctxSpan (tracer : nat) (ctx : Context)
| childSpan (id : nat).

(** A call on the wrapped connection, with the arguments it receives. *)
Inductive DriverCall : Type :=
| CallPrepare (query : string)
| CallClose
| CallBegin
| CallBeginTx (ctx : Context) (o : TxOptions)
| CallPrepareContext (ctx : Context) (query : string)
| CallExec (query : string) (args : list Value)
| CallExecContext (ctx : Context) (query : string) (args : list NamedValue)
| CallPing (ctx : Context)
| CallQuery (query : string) (args : list Value)
| CallQueryContext (ctx : Context) (query : string) (args : list NamedValue)
| CallCheckNamedValue (v : NamedValue).

Inductive Event : Type :=
| EvNewChild (parent : Span) (op : Op) (child : Span)
| EvSetLabel (s : Span) (key value : string)
| EvSetError (s : Span) (e : error)
| EvFinish (s : Span)
| EvLog (logger : nat) (ctx : Context) (op : Op) (keyvals : list LogVal)
| EvCall (d : DriverCall).

Definition is_span_event (e : Event) : bool :=
  match e with
  | EvNewChild _ _ _ | EvSetLabel _ _ _ | EvSetError _ _ | EvFinish _ => true
  | _ => false
  end.

Definition is_span_creation (e : Event) : bool :=
  match e with EvNewChild _ _ _ => true | _ => false end.

Definition is_log_event (e : Event) : bool :=
  match e with EvLog _ _ _ _ => true | _ => false end.

Definition is_driver_call (e : Event) : bool :=
  match e with EvCall _ => true | _ => false end.

(** The driver calls of a run, in order. *)
Fixpoint driver_calls (evs : list Event) : list DriverCall :=
  match evs with
  | [] => []
  | EvCall d :: evs' => d :: driver_calls evs'
  | _ :: evs' => driver_calls evs'
  end.

(** ** The monad of a method body

    A body runs from a state and yields its return value, the state after
    it and the calls it made to the outside, oldest first. *)
Record State : Type := {
  st_drv : DS;
  st_ticks : nat;
  st_spans : nat
}.

Definition M (A : Type) : Type := State -> A * State * list Event.

Definition ret {A} (a : A) : M A := fun s => (a, s, []).

Definition bind {A B} (m : M A) (k : A -> M B) : M B :=
  fun s =>
    let '(a, s1, e1) := m s in
    let '(b, s2, e2) := k a s1 in
    (b, s2, (e1 ++ e2)%list).

Notation "x <- m ;; k" := (bind m (fun x => k))
  (at level 100, m at next level, right associativity).
Notation "m ;;; k" := (bind m (fun _ => k))
  (at level 100, right associativity).

Definition value_of {A} (r : A * State * list Event) : A := fst (fst r).
Definition state_of {A} (r : A * State * list Event) : State := snd (fst r).
Definition events_of {A} (r : A * State * list Event) : list Event := snd r.

Definition emit (e : Event) : M unit := fun s => (tt, s, [e]).

(** [time.Now()] and [time.Since(start)]. *)
Definition time_Now : M Time :=
  fun s =>
    (clock (st_ticks s),
     {| st_drv := st_drv s; st_ticks := S (st_ticks s); st_spans := st_spans s |},
     []).

Definition time_Since (start : Time) : M Duration :=
  now <- time_Now ;; ret (now - start).

(** A method call on the wrapped connection. *)
Definition call {A} (d : DriverCall) (f : DS -> A * DS) : M A :=
  fun s =>
    let '(a, ds) := f (st_drv s) in
    (a,
     {| st_drv := ds; st_ticks := st_ticks s; st_spans := st_spans s |},
     [EvCall d]).

(** The non-blocking receive on [ctx.Done()] followed by [ctx.Err()]:
    [Some e] when the context is done. *)
Definition ctx_done (ctx : Context) : M error :=
  fun s => (ctx_Err ctx (st_drv s), s, []).

(** The tracer and the logger. *)
Definition GetSpan (o : opts) (ctx : Context) : Span := ctxSpan (Tracer o) ctx.

Definition NewChild (parent : Span) (op : Op) : M Span :=
  fun s =>
    let child := childSpan (st_spans s) in
    (child,
     {| st_drv := st_drv s; st_ticks := st_ticks s; st_spans := S (st_spans s) |},
     [EvNewChild parent op child]).

Definition SetLabel (sp : Span) (k v : string) : M unit := emit (EvSetLabel sp k v).
Definition SetError (sp : Span) (e : error) : M unit := emit (EvSetError sp e).
Definition Finish (sp : Span) : M unit := emit (EvFinish sp).

Definition Log (o : opts) (ctx : Context) (op : Op) (keyvals : list LogVal) : M unit :=
  emit (EvLog (Logger o) ctx op keyvals).

(** Modelled from the spec: [logQuery] is defined outside [conn.go].  The
    spec says that at the end of an instrumented call a log record is
    emitted that contains the operation kind, the error and the elapsed
    duration; the query and the arguments it is handed are not described as
    part of the record. *)
Definition logQuery (ctx : Context) (o : opts) (op : Op) (query : string)
    (err : error) (args : option (list NamedValue)) (start : Time) : M unit :=
  d <- time_Since start ;;
  Log o ctx op [LStr "err"; LErr err; LStr "duration"; LDuration d].

(** A function with a named result [err] and a [defer]: the deferred
    closure runs after the body has set the results and reads [err];
    [err_of] selects the named result [err] among the results. *)
Definition defer {R} (err_of : R -> error) (body : M R) (deferred : error -> M unit) : M R :=
  r <- body ;;
  deferred (err_of r) ;;;
  ret r.

(** ** The methods of [WrappedConn] ([conn.go]) *)

Definition Prepare (c : WrappedConn) (query : string) : M (Stmt * error) :=
  r <- call (CallPrepare query) (Conn_Prepare (Parent c) query) ;;
  match snd r with
  | Some _ => ret (nilStmt, snd r)
  | None => ret (wrappedStmt (wc_opts c) None query (fst r), None)
  end.

Definition Close (c : WrappedConn) : M error :=
  call CallClose (Conn_Close (Parent c)).

Definition Begin (c : WrappedConn) : M (Tx * error) :=
  r <- call CallBegin (Conn_Begin (Parent c)) ;;
  match snd r with
  | Some _ => ret (nilTx, snd r)
  | None => ret (wrappedTx (wc_opts c) None (fst r), None)
  end.

Definition BeginTx (c : WrappedConn) (ctx : Context) (txopts : TxOptions)
    : M (Tx * error) :=
  let body : M (Tx * error) :=
    match as_ConnBeginTx (Parent c) with
    | Some connBeginTx =>
        r <- call (CallBeginTx ctx txopts) (connBeginTx ctx txopts) ;;
        match snd r with
        | Some _ => ret (nilTx, snd r)
        | None => ret (wrappedTx (wc_opts c) (Some ctx) (fst r), None)
        end
    | None =>
        r <- call CallBegin (Conn_Begin (Parent c)) ;;
        match snd r with
        | Some _ => ret (nilTx, snd r)
        | None => ret (wrappedTx (wc_opts c) (Some ctx) (fst r), None)
        end
    end in
  if negb (hasOpExcluded (wc_opts c) OpSQLTxBegin) then
    span <- NewChild (GetSpan (wc_opts c) ctx) OpSQLTxBegin ;;
    SetLabel span "component" "database/sql" ;;;
    start <- time_Now ;;
    defer snd body (fun err =>
      SetError span err ;;;
      Finish span ;;;
      d <- time_Since start ;;
      Log (wc_opts c) ctx OpSQLTxBegin [LStr "err"; LErr err; LStr "duration"; LDuration d])
  else body.

Definition PrepareContext (c : WrappedConn) (ctx : Context) (query : string)
    : M (Stmt * error) :=
  let body : M (Stmt * error) :=
    match as_ConnPrepareContext (Parent c) with
    | Some connPrepareCtx =>
        r <- call (CallPrepareContext ctx query) (connPrepareCtx ctx query) ;;
        match snd r with
        | Some _ => ret (nilStmt, snd r)
        | None => ret (wrappedStmt (wc_opts c) (Some ctx) query (fst r), None)
        end
    | None => Prepare c query
    end in
  if negb (hasOpExcluded (wc_opts c) OpSQLPrepare) then
    span <- NewChild (GetSpan (wc_opts c) ctx) OpSQLPrepare ;;
    SetLabel span "component" "database/sql" ;;;
    start <- time_Now ;;
    defer snd body (fun err =>
      SetError span err ;;;
      Finish span ;;;
      logQuery ctx (wc_opts c) OpSQLPrepare query err None start)
  else body.

Definition Exec (c : WrappedConn) (query : string) (args : list Value)
    : M (Result * error) :=
  match as_Execer (Parent c) with
  | Some execer =>
      r <- call (CallExec query args) (execer query args) ;;
      match snd r with
      | Some _ => ret (nilResult, snd r)
      | None => ret (wrappedResult (wc_opts c) None (fst r), None)
      end
  | None => ret (nilResult, Some ErrSkip)
  end.

Definition ExecContext (c : WrappedConn) (ctx : Context) (query : string)
    (args : list NamedValue) : M (Result * error) :=
  let body : M (Result * error) :=
    match as_ExecerContext (Parent c) with
    | Some execContext =>
        r <- call (CallExecContext ctx query args) (execContext ctx query args) ;;
        match snd r with
        | Some _ => ret (nilResult, snd r)
        | None => ret (wrappedResult (wc_opts c) (Some ctx) (fst r), None)
        end
    | None =>
        (* Fallback implementation *)
        let conv := namedValueToValue args in
        match snd conv with
        | Some _ => ret (nilResult, snd conv)
        | None =>
            done <- ctx_done ctx ;;
            match done with
            | Some e => ret (nilResult, Some e)
            | None => Exec c query (fst conv)
            end
        end
    end in
  if negb (hasOpExcluded (wc_opts c) OpSQLConnExec) then
    span <- NewChild (GetSpan (wc_opts c) ctx) OpSQLConnExec ;;
    SetLabel span "component" "database/sql" ;;;
    SetLabel span "query" query ;;;
    (if negb (OmitArgs (wc_opts c))
     then SetLabel span "args" (formatArgs args) else ret tt) ;;;
    start <- time_Now ;;
    defer snd body (fun err =>
      SetError span err ;;;
      Finish span ;;;
      logQuery ctx (wc_opts c) OpSQLConnExec query err (Some args) start)
  else body.

Definition Ping (c : WrappedConn) (ctx : Context) : M error :=
  match as_Pinger (Parent c) with
  | Some pinger =>
      let body : M error := call (CallPing ctx) (pinger ctx) in
      if negb (hasOpExcluded (wc_opts c) OpSQLPing) then
        span <- NewChild (GetSpan (wc_opts c) ctx) OpSQLPing ;;
        SetLabel span "component" "database/sql" ;;;
        start <- time_Now ;;
        defer id body (fun err =>
          SetError span err ;;;
          Finish span ;;;
          d <- time_Since start ;;
          Log (wc_opts c) ctx OpSQLPing [LStr "err"; LErr err; LStr "duration"; LDuration d])
      else body
  | None =>
      Log (wc_opts c) ctx OpSQLDummyPing [LStr "duration"; LDuration 0] ;;;
      ret None
  end.

Definition Query (c : WrappedConn) (query : string) (args : list Value)
    : M (Rows * error) :=
  match as_Queryer (Parent c) with
  | Some queryer =>
      r <- call (CallQuery query args) (queryer query args) ;;
      match snd r with
      | Some _ => ret (nilRows, snd r)
      | None => ret (wrappedRows (wc_opts c) None (fst r), None)
      end
  | None => ret (nilRows, Some ErrSkip)
  end.

Definition QueryContext (c : WrappedConn) (ctx : Context) (query : string)
    (args : list NamedValue) : M (Rows * error) :=
  (* Quick skip path *)
  let hasQueryerContext := implements (as_QueryerContext (Parent c)) in
  let hasQueryer := implements (as_Queryer (Parent c)) in
  if negb hasQueryerContext && negb hasQueryer then ret (nilRows, Some ErrSkip)
  else
    let body : M (Rows * error) :=
      match as_QueryerContext (Parent c) with
      | Some queryerContext =>
          r <- call (CallQueryContext ctx query args) (queryerContext ctx query args) ;;
          match snd r with
          | Some _ => ret (nilRows, snd r)
          | None => ret (wrappedRows (wc_opts c) (Some ctx) (fst r), None)
          end
      | None =>
          let conv := namedValueToValue args in
          match snd conv with
          | Some _ => ret (nilRows, snd conv)
          | None =>
              done <- ctx_done ctx ;;
              match done with
              | Some e => ret (nilRows, Some e)
              | None => Query c query (fst conv)
              end
          end
      end in
    if negb (hasOpExcluded (wc_opts c) OpSQLConnQuery) then
      span <- NewChild (GetSpan (wc_opts c) ctx) OpSQLConnQuery ;;
      SetLabel span "component" "database/sql" ;;;
      SetLabel span "query" query ;;;
      (if negb (OmitArgs (wc_opts c))
       then SetLabel span "args" (formatArgs args) else ret tt) ;;;
      start <- time_Now ;;
      defer snd body (fun err =>
        SetError span err ;;;
        Finish span ;;;
        logQuery ctx (wc_opts c) OpSQLConnQuery query err (Some args) start)
    else body.

(** ** [conn_go19.go] *)

(** The argument is a pointer: the value the checker leaves behind is
    returned next to the error. *)
Definition CheckNamedValue (c : WrappedConn) (v : NamedValue) : M (NamedValue * error) :=
  match as_NamedValueChecker (Parent c) with
  | Some checker => call (CallCheckNamedValue v) (checker v)
  | None => ret (v, Some ErrSkip)
  end.

(** ** Observations used to state the properties *)

(** A run made no tracer call, resp. no logger call. *)
Definition no_span {A} (r : A * State * list Event) : Prop :=
  existsb is_span_event (events_of r) = false.

Definition no_log {A} (r : A * State * list Event) : Prop :=
  existsb is_log_event (events_of r) = false.

(** Two runs delegated alike: the same driver calls with the same arguments
    in the same order, leaving the driver in the same state. *)
Definition same_delegation {A B} (r : A * State * list Event)
    (r' : B * State * list Event) : Prop :=
  driver_calls (events_of r) = driver_calls (events_of r') /\
  st_drv (state_of r) = st_drv (state_of r').

(** The error with which the wrapped connection [p] answers the call [d] in
    driver state [ds]; [None] when [p] lacks the capability [d] belongs to. *)
Definition driver_error (p : Conn) (d : DriverCall) (ds : DS) : option error :=
  match d with
  | CallPrepare q => Some (snd (fst (Conn_Prepare p q ds)))
  | CallClose => Some (fst (Conn_Close p ds))
  | CallBegin => Some (snd (fst (Conn_Begin p ds)))
  | CallBeginTx ctx o =>
      option_map (fun f => snd (fst (f ctx o ds))) (as_ConnBeginTx p)
  | CallPrepareContext ctx q =>
      option_map (fun f => snd (fst (f ctx q ds))) (as_ConnPrepareContext p)
  | CallExec q args =>
      option_map (fun f => snd (fst (f q args ds))) (as_Execer p)
  | CallExecContext ctx q args =>
      option_map (fun f => snd (fst (f ctx q args ds))) (as_ExecerContext p)
  | CallPing ctx =>
      option_map (fun f => fst (f ctx ds)) (as_Pinger p)
  | CallQuery q args =>
      option_map (fun f => snd (fst (f q args ds))) (as_Queryer p)
  | CallQueryContext ctx q args =>
      option_map (fun f => snd (fst (f ctx q args ds))) (as_QueryerContext p)
  | CallCheckNamedValue v =>
      option_map (fun f => snd (fst (f v ds))) (as_NamedValueChecker p)
  end.

(** A run from [s] on the connection [p] forwards verbatim: it makes no
    driver call at all, or exactly one, taken from [allowed], and when the
    driver answers that call with an error the run returns that very
    error. *)
Definition forwards_verbatim {R} (err_of : R -> error) (p : Conn)
    (allowed : list DriverCall) (s : State) (r : R * State * list Event) : Prop :=
  driver_calls (events_of r) = [] \/
  exists d, In d allowed /\ driver_calls (events_of r) = [d] /\
    forall e, driver_error p d (st_drv s) = Some (Some e) ->
              err_of (value_of r) = Some e.

(** A run from [s] on the connection [p] delegates to the call [d]: [d] is
    the one driver call it makes, [p] has the capability [d] belongs to,
    and the error the run returns is exactly the one with which [p]
    answers [d], nil included. *)
Definition delegates_to {R} (err_of : R -> error) (p : Conn) (d : DriverCall)
    (s : State) (r : R * State * list Event) : Prop :=
  driver_calls (events_of r) = [d] /\
  driver_error p d (st_drv s) = Some (err_of (value_of r)).

(** The same artefact under the options of another decorator: only the
    [opts] field of the outermost wrapper is replaced. *)
Definition Tx_with_opts (o : opts) (t : Tx) : Tx :=
  match t with wrappedTx _ ctx parent => wrappedTx o ctx parent | _ => t end.

Definition Stmt_with_opts (o : opts) (t : Stmt) : Stmt :=
  match t with wrappedStmt _ ctx q parent => wrappedStmt o ctx q parent | _ => t end.

Definition Result_with_opts (o : opts) (t : Result) : Result :=
  match t with wrappedResult _ ctx parent => wrappedResult o ctx parent | _ => t end.

Definition Rows_with_opts (o : opts) (t : Rows) : Rows :=
  match t with wrappedRows _ ctx parent => wrappedRows o ctx parent | _ => t end.

(** A span label that carries the rendered arguments. *)
Definition is_args_label (e : Event) : bool :=
  match e with EvSetLabel _ key _ => String.eqb key "args" | _ => false end.

(** The shape of an instrumented run from [s]: one span is opened as a
    child of the context's span under the kind [op] and given [labels] in
    order; then come the driver calls of the run; then the span receives
    the error the run returns and is finished; what follows are log
    records only. *)
Definition span_lifecycle {R} (err_of : R -> error) (o : opts) (ctx : Context)
    (op : Op) (labels : list (string * string)) (s : State)
    (r : R * State * list Event) : Prop :=
  let sp := childSpan (st_spans s) in
  exists logged,
    events_of r =
      ((EvNewChild (GetSpan o ctx) op sp
        :: map (fun kv => EvSetLabel sp (fst kv) (snd kv)) labels)
       ++ map EvCall (driver_calls (events_of r))
       ++ EvSetError sp (err_of (value_of r)) :: EvFinish sp :: logged)%list /\
    forallb is_log_event logged = true.

End Decorator.

Arguments Context : clear implicits.
Arguments Stmt : clear implicits.
Arguments Tx : clear implicits.
Arguments Result : clear implicits.
Arguments Rows : clear implicits.
Arguments Conn : clear implicits.
Arguments WrappedConn : clear implicits.
Arguments Span : clear implicits.
Arguments DriverCall : clear implicits.
Arguments Event : clear implicits.
Arguments State : clear implicits.
Arguments M : clear implicits.

(** ** A concrete driver, used to run the methods

    The driver state counts the calls received.  Handles are numbered by
    that counter.  A call whose query is the empty string fails. *)
Module Fixture.

Definition DS : Type := nat.

Definition clock (n : nat) : Time := 1000 + 7 * Z.of_nat n.

Definition formatArgs (args : list NamedValue) : string :=
  String.concat "," (map Name args).

(** Positional values only: a named argument is refused. *)
Fixpoint namedValueToValue (named : list NamedValue) : list Value * error :=
  match named with
  | [] => ([], None)
  | p :: rest =>
      if String.eqb (Name p) "" then
        match namedValueToValue rest with
        | (vs, None) => (NValue p :: vs, None)
        | (_, Some e) => ([], Some e)
        end
      else ([], Some (ErrOther "driver does not support the use of Named Parameters"))
  end.

Definition syntax_error : error := Some (ErrOther "syntax error").

Definition answer {A} (nil : A) (handle : nat -> A) (query : string) (ds : DS)
    : (A * error) * DS :=
  if String.eqb query "" then ((nil, syntax_error), S ds)
  else ((handle ds, None), S ds).

Definition legacy_Exec (q : string) (_ : list Value) : DS -> (Result DS * error) * DS :=
  answer nilResult driverResult q.
Definition legacy_Query (q : string) (_ : list Value) : DS -> (Rows DS * error) * DS :=
  answer nilRows driverRows q.
Definition modern_BeginTx (_ : Context DS) (_ : TxOptions) : DS -> (Tx DS * error) * DS :=
  answer nilTx driverTx "BEGIN".
Definition modern_ExecContext (_ : Context DS) (q : string) (_ : list NamedValue)
    : DS -> (Result DS * error) * DS :=
  answer nilResult driverResult q.
Definition modern_QueryContext (_ : Context DS) (q : string) (_ : list NamedValue)
    : DS -> (Rows DS * error) * DS :=
  answer nilRows driverRows q.

(** Only the mandatory methods of [driver.Conn]. *)
Definition baseConn : Conn DS := {|
  Conn_Prepare := answer nilStmt driverStmt;
  Conn_Close := fun ds => (None, S ds);
  Conn_Begin := answer nilTx driverTx "BEGIN";
  as_ConnBeginTx := None;
  as_ConnPrepareContext := None;
  as_Execer := None;
  as_ExecerContext := None;
  as_Pinger := None;
  as_Queryer := None;
  as_QueryerContext := None;
  as_NamedValueChecker := None
|}.

(** The legacy optional interfaces, none of the context-aware ones. *)
Definition legacyConn : Conn DS := {|
  Conn_Prepare := answer nilStmt driverStmt;
  Conn_Close := fun ds => (None, S ds);
  Conn_Begin := answer nilTx driverTx "BEGIN";
  as_ConnBeginTx := None;
  as_ConnPrepareContext := None;
  as_Execer := Some legacy_Exec;
  as_ExecerContext := None;
  as_Pinger := None;
  as_Queryer := Some legacy_Query;
  as_QueryerContext := None;
  as_NamedValueChecker := None
|}.

(** Every optional interface. *)
Definition modernConn : Conn DS := {|
  Conn_Prepare := answer nilStmt driverStmt;
  Conn_Close := fun ds => (None, S ds);
  Conn_Begin := answer nilTx driverTx "BEGIN";
  as_ConnBeginTx := Some modern_BeginTx;
  as_ConnPrepareContext := Some (fun _ q => answer nilStmt driverStmt q);
  as_Execer := Some legacy_Exec;
  as_ExecerContext := Some modern_ExecContext;
  as_Pinger := Some (fun _ ds => (None, S ds));
  as_Queryer := Some legacy_Query;
  as_QueryerContext := Some modern_QueryContext;
  as_NamedValueChecker :=
    Some (fun v ds =>
            if String.eqb (Name v) "" then ((v, None), S ds)
            else ((v, Some (ErrOther "named parameter")), S ds))
|}.

Definition background : Context DS := {| ctx_id := 0; ctx_Err := fun _ => None |}.
Definition cancelled : Context DS := {| ctx_id := 1; ctx_Err := fun _ => Some Canceled |}.

Definition all_ops : list Op :=
  [OpSQLPrepare; OpSQLConnExec; OpSQLConnQuery; OpSQLTxBegin; OpSQLPing; OpSQLDummyPing].

Definition trace_all : opts :=
  {| Logger := 1; Tracer := 2; OmitArgs := false; excludedOps := ∅ |}.
Definition trace_none : opts :=
  {| Logger := 1; Tracer := 2; OmitArgs := false; excludedOps := list_to_set all_ops |}.

Definition traced (p : Conn DS) : WrappedConn DS := {| wc_opts := trace_all; Parent := p |}.
Definition untraced (p : Conn DS) : WrappedConn DS := {| wc_opts := trace_none; Parent := p |}.

Definition start : State DS := {| st_drv := 0%nat; st_ticks := 0; st_spans := 0 |}.

Definition default_tx : TxOptions := {| Isolation := 0; ReadOnly := false |}.
Definition serializable_ro : TxOptions := {| Isolation := 6; ReadOnly := true |}.

Definition arg (v : Value) : NamedValue := {| Name := ""; Ordinal := 1; NValue := v |}.
Definition named_arg (n : string) (v : Value) : NamedValue :=
  {| Name := n; Ordinal := 1; NValue := v |}.

End Fixture.

(** * Properties *)

Section Properties.

Context {DS : Type}.
Variable clock : nat -> Time.
Variable formatArgs : list NamedValue -> string.
Variable namedValueToValue : list NamedValue -> list Value * error.

Implicit Types (c : WrappedConn DS) (ctx : Context DS) (s : State DS).
Implicit Types (query : string) (args : list NamedValue) (dargs : list Value).

Ltac unfold_methods :=
  unfold BeginTx, PrepareContext, ExecContext, QueryContext, Ping,
    CheckNamedValue, Close;
  unfold Prepare, Begin, Exec, Query.

Ltac unfold_monad :=
  unfold defer, logQuery, time_Since, time_Now, Log, SetLabel, SetError,
    Finish, NewChild, GetSpan, emit, ctx_done, call, bind, ret.

Ltac unfold_obs :=
  unfold no_span, no_log, same_delegation, value_of, state_of, events_of.

(* one case distinction of the method body, innermost first: a value
   already named, a type assertion, the answer of the driver or of the
   context, the argument conversion, a lookup in the options *)
Ltac case_step :=
  match goal with
  | |- context [snd ?x] => is_var x; destruct x
  | |- context [fst ?x] => is_var x; destruct x
  | |- context [match ?x with _ => _ end] => is_var x; destruct x
  | |- context [match ?x with _ => _ end] =>
      match x with
      | as_ConnBeginTx _ => idtac
      | as_ConnPrepareContext _ => idtac
      | as_Execer _ => idtac
      | as_ExecerContext _ => idtac
      | as_Pinger _ => idtac
      | as_Queryer _ => idtac
      | as_QueryerContext _ => idtac
      | as_NamedValueChecker _ => idtac
      end; destruct x eqn:?
  | |- context [?f (st_drv ?s)] =>
      match type of (f (st_drv s)) with
      | (_ * _)%type => idtac
      | error => idtac
      end; destruct (f (st_drv s)) eqn:?
  | |- context [namedValueToValue ?a] => destruct (namedValueToValue a) eqn:?
  | |- context [hasOpExcluded ?o ?op] => destruct (hasOpExcluded o op) eqn:?
  | |- context [OmitArgs ?o] => destruct (OmitArgs o) eqn:?
  end; cbn [fst snd negb andb implements st_drv st_ticks st_spans Parent wc_opts] in *.

Ltac run :=
  unfold_methods; unfold_monad; unfold_obs;
  cbn [fst snd Parent wc_opts] in *; repeat case_step.

(* two decorators of the same connection, run side by side *)
Ltac same_parent c c' H :=
  destruct c as [o p], c' as [o' p']; cbn [Parent wc_opts] in *; subst p'.

(* a goal [forwards_verbatim]: run the method, then exhibit the one call *)
Ltac verbatim :=
  unfold forwards_verbatim; run;
  cbn [driver_calls app driver_error option_map fst snd id In];
  first
    [ left; reflexivity
    | right; eexists; split; [| split; [reflexivity|]];
      [ cbn; auto
      | let Hd := fresh "Hd" in
        cbn [driver_error]; intros ? Hd;
        repeat match goal with
               | E : _ = _ |- _ =>
                   tryif constr_eq E Hd then fail else rewrite E in Hd;
                   cbn [option_map fst snd] in Hd
               end;
        cbn [id]; congruence ] ].

(* a goal [delegates_to], after the method has been run: the call made is
   the expected one and the driver's answer to it is the error returned *)
Ltac pin :=
  unfold delegates_to; unfold_obs;
  repeat match goal with
         | |- _ /\ _ => split
         | |- forall _, _ => intro
         end;
  cbn [driver_calls app driver_error option_map fst snd id implements] in *;
  try congruence;
  simplify_eq;
  repeat match goal with
         | E : _ = _ |- _ => progress (rewrite E; cbn [option_map fst snd id])
         end;
  congruence.

Ltac delegation := intros; run; pin.

(** ** Traces *)

(** A trace made of driver calls only holds no tracer and no logger call. *)
Lemma only_calls_no_span (evs : list (Event DS)) :
  forallb is_driver_call evs = true -> existsb is_span_event evs = false.
Proof.
  induction evs as [|e evs IH]; [reflexivity|].
  destruct e; cbn; intros H; try discriminate; auto.
Qed.

Lemma only_calls_no_log (evs : list (Event DS)) :
  forallb is_driver_call evs = true -> existsb is_log_event evs = false.
Proof.
  induction evs as [|e evs IH]; [reflexivity|].
  destruct e; cbn; intros H; try discriminate; auto.
Qed.

(** ** The legacy methods *)

Lemma Prepare_only_calls c query s :
  forallb is_driver_call (events_of (Prepare c query s)) = true.
Proof. run; reflexivity. Qed.

Lemma Begin_only_calls c s :
  forallb is_driver_call (events_of (Begin c s)) = true.
Proof. run; reflexivity. Qed.

Lemma Exec_only_calls c query dargs s :
  forallb is_driver_call (events_of (Exec c query dargs s)) = true.
Proof. run; reflexivity. Qed.

Lemma Query_only_calls c query dargs s :
  forallb is_driver_call (events_of (Query c query dargs s)) = true.
Proof. run; reflexivity. Qed.

(** C9: the legacy methods [Prepare], [Begin], [Exec] and [Query] never
    create a span and never emit a log record, whatever the input and the
    options; every call they make to the outside is a call on the wrapped
    connection. *)
Theorem legacy_methods_not_instrumented c query dargs s :
  (no_span (Prepare c query s) /\ no_log (Prepare c query s) /\
   forallb is_driver_call (events_of (Prepare c query s)) = true) /\
  (no_span (Begin c s) /\ no_log (Begin c s) /\
   forallb is_driver_call (events_of (Begin c s)) = true) /\
  (no_span (Exec c query dargs s) /\ no_log (Exec c query dargs s) /\
   forallb is_driver_call (events_of (Exec c query dargs s)) = true) /\
  (no_span (Query c query dargs s) /\ no_log (Query c query dargs s) /\
   forallb is_driver_call (events_of (Query c query dargs s)) = true).
Proof.
  unfold no_span, no_log.
  pose proof (Prepare_only_calls c query s).
  pose proof (Begin_only_calls c s).
  pose proof (Exec_only_calls c query dargs s).
  pose proof (Query_only_calls c query dargs s).
  repeat split; auto using only_calls_no_span, only_calls_no_log.
Qed.

(** ** The liveness check *)

(** C4: [Ping] on a connection that is no [driver.Pinger] returns a nil
    error, creates no span and emits exactly one log record, of kind
    dummy-ping and with duration zero; no assumption is made on the
    exclusion set, and nothing else happens. *)
Theorem Ping_without_pinger c ctx s :
  as_Pinger (Parent c) = None ->
  value_of (Ping clock c ctx s) = None /\
  events_of (Ping clock c ctx s) =
    [EvLog (Logger (wc_opts c)) ctx OpSQLDummyPing [LStr "duration"; LDuration 0]] /\
  no_span (Ping clock c ctx s) /\
  state_of (Ping clock c ctx s) = s.
Proof.
  intros Hno. unfold Ping. rewrite Hno.
  unfold_monad; unfold_obs; cbn. repeat split; reflexivity.
Qed.

(** ** Named-value checking *)

(** C10: [CheckNamedValue] answers with exactly the result of the wrapped
    connection's checker when there is one, with [driver.ErrSkip] when there
    is none, and in both cases creates no span and emits no log record. *)
Theorem CheckNamedValue_forwards c (v : NamedValue) s :
  (forall checker, as_NamedValueChecker (Parent c) = Some checker ->
     value_of (CheckNamedValue c v s) = fst (checker v (st_drv s)) /\
     st_drv (state_of (CheckNamedValue c v s)) = snd (checker v (st_drv s)) /\
     events_of (CheckNamedValue c v s) = [EvCall (CallCheckNamedValue v)]) /\
  (as_NamedValueChecker (Parent c) = None ->
     value_of (CheckNamedValue c v s) = (v, Some ErrSkip) /\
     state_of (CheckNamedValue c v s) = s /\
     events_of (CheckNamedValue c v s) = []) /\
  no_span (CheckNamedValue c v s) /\
  no_log (CheckNamedValue c v s).
Proof.
  unfold CheckNamedValue. split; [|split].
  - intros checker H. rewrite H. unfold_monad; unfold_obs.
    destruct (checker v (st_drv s)); cbn. auto.
  - intros H. rewrite H. unfold_monad; unfold_obs. cbn. auto.
  - run; auto.
Qed.

(** ** Beginning a transaction *)

(** Without [driver.ConnBeginTx] the only driver call of [BeginTx] is the
    legacy [Begin], whatever the context and the transaction options. *)
Lemma BeginTx_fallback_calls_Begin c ctx txopts s :
  as_ConnBeginTx (Parent c) = None ->
  driver_calls (events_of (BeginTx clock c ctx txopts s)) = [CallBegin].
Proof.
  intros Hno. unfold BeginTx. rewrite Hno. run; reflexivity.
Qed.

(** C8: when [BeginTx] falls back to the legacy [Begin], the transaction
    options are dropped silently: the whole run (result, driver state and
    every call made) is the same for any two option values, the one driver
    call is [Begin], which has no argument, and the error returned is the
    one [Begin] gave, so none is raised for the lost options. *)
Theorem BeginTx_fallback_discards_TxOptions c ctx (o1 o2 : TxOptions) s :
  as_ConnBeginTx (Parent c) = None ->
  BeginTx clock c ctx o1 s = BeginTx clock c ctx o2 s /\
  driver_calls (events_of (BeginTx clock c ctx o1 s)) = [CallBegin] /\
  snd (value_of (BeginTx clock c ctx o1 s)) =
    snd (fst (Conn_Begin (Parent c) (st_drv s))).
Proof.
  intros Hno. split; [|split].
  - unfold BeginTx. rewrite Hno. reflexivity.
  - apply BeginTx_fallback_calls_Begin, Hno.
  - unfold BeginTx. rewrite Hno. run; congruence.
Qed.

(** ** The modern capability *)

(** C5: when the wrapped connection implements the context-aware capability
    of an operation, the decorator makes that one call with the context and
    arguments it received; on success it returns the decorator struct whose
    parent is the artefact of the call, carrying the connection's options
    and the call's context, with a nil error; on failure it returns the nil
    artefact and the very error of the call. *)
Theorem modern_capability_outputs_wrapped c ctx s :
  (forall f txopts tx err ds,
     as_ConnBeginTx (Parent c) = Some f ->
     f ctx txopts (st_drv s) = (tx, err, ds) ->
     let r := BeginTx clock c ctx txopts s in
     (err = None -> value_of r = (wrappedTx (wc_opts c) (Some ctx) tx, None)) /\
     (err <> None -> value_of r = (nilTx, err)) /\
     driver_calls (events_of r) = [CallBeginTx ctx txopts] /\
     st_drv (state_of r) = ds) /\
  (forall f query stmt err ds,
     as_ConnPrepareContext (Parent c) = Some f ->
     f ctx query (st_drv s) = (stmt, err, ds) ->
     let r := PrepareContext clock c ctx query s in
     (err = None -> value_of r = (wrappedStmt (wc_opts c) (Some ctx) query stmt, None)) /\
     (err <> None -> value_of r = (nilStmt, err)) /\
     driver_calls (events_of r) = [CallPrepareContext ctx query] /\
     st_drv (state_of r) = ds) /\
  (forall f query args res err ds,
     as_ExecerContext (Parent c) = Some f ->
     f ctx query args (st_drv s) = (res, err, ds) ->
     let r := ExecContext clock formatArgs namedValueToValue c ctx query args s in
     (err = None -> value_of r = (wrappedResult (wc_opts c) (Some ctx) res, None)) /\
     (err <> None -> value_of r = (nilResult, err)) /\
     driver_calls (events_of r) = [CallExecContext ctx query args] /\
     st_drv (state_of r) = ds) /\
  (forall f query args rows err ds,
     as_QueryerContext (Parent c) = Some f ->
     f ctx query args (st_drv s) = (rows, err, ds) ->
     let r := QueryContext clock formatArgs namedValueToValue c ctx query args s in
     (err = None -> value_of r = (wrappedRows (wc_opts c) (Some ctx) rows, None)) /\
     (err <> None -> value_of r = (nilRows, err)) /\
     driver_calls (events_of r) = [CallQueryContext ctx query args] /\
     st_drv (state_of r) = ds).
Proof.
  split; [|split; [|split]]; intros until 2; intros r; subst r;
    match goal with
    | H : _ (Parent c) = Some _, E : _ = (_, _, _) |- _ =>
        unfold BeginTx, PrepareContext, ExecContext, QueryContext;
        rewrite H; unfold_monad; unfold_obs;
        cbn [fst snd negb andb implements st_drv];
        repeat (rewrite E; cbn [fst snd negb andb implements st_drv]);
        repeat case_step; try rewrite E;
        cbn [fst snd negb andb implements st_drv driver_calls app];
        repeat split; try reflexivity; try congruence
    end.
Qed.

(** ** The legacy fallback of exec and query *)

(** What [Exec] and [Query] do on a connection with the legacy interface:
    one call, whose outputs are wrapped. *)
Lemma Exec_legacy c query dargs s f res err ds :
  as_Execer (Parent c) = Some f ->
  f query dargs (st_drv s) = (res, err, ds) ->
  Exec c query dargs s =
    (match err with
     | Some _ => (nilResult, err)
     | None => (wrappedResult (wc_opts c) None res, None)
     end,
     {| st_drv := ds; st_ticks := st_ticks s; st_spans := st_spans s |},
     [EvCall (CallExec query dargs)]).
Proof.
  intros H E. unfold Exec. rewrite H. unfold_monad. rewrite E.
  destruct err; reflexivity.
Qed.

Lemma Query_legacy c query dargs s f rows err ds :
  as_Queryer (Parent c) = Some f ->
  f query dargs (st_drv s) = (rows, err, ds) ->
  Query c query dargs s =
    (match err with
     | Some _ => (nilRows, err)
     | None => (wrappedRows (wc_opts c) None rows, None)
     end,
     {| st_drv := ds; st_ticks := st_ticks s; st_spans := st_spans s |},
     [EvCall (CallQuery query dargs)]).
Proof.
  intros H E. unfold Query. rewrite H. unfold_monad. rewrite E.
  destruct err; reflexivity.
Qed.

(** On the fallback path the value, the driver calls and the driver state
    of the context-aware method are those of the body after the span
    set-up; the three lemmas below say what that body does. *)
Lemma ExecContext_fallback_converted c ctx query args dargs s :
  as_ExecerContext (Parent c) = None ->
  namedValueToValue args = (dargs, None) ->
  ctx_Err ctx (st_drv s) = None ->
  let r := ExecContext clock formatArgs namedValueToValue c ctx query args s in
  value_of r = value_of (Exec c query dargs s) /\
  same_delegation r (Exec c query dargs s).
Proof.
  intros Hno Hconv Hctx r. subst r. unfold ExecContext. rewrite Hno, Hconv.
  run; cbn; split; try split; congruence.
Qed.

Lemma QueryContext_fallback_converted c ctx query args dargs s :
  as_QueryerContext (Parent c) = None ->
  as_Queryer (Parent c) <> None ->
  namedValueToValue args = (dargs, None) ->
  ctx_Err ctx (st_drv s) = None ->
  let r := QueryContext clock formatArgs namedValueToValue c ctx query args s in
  value_of r = value_of (Query c query dargs s) /\
  same_delegation r (Query c query dargs s).
Proof.
  intros Hno Hleg Hconv Hctx r. subst r. unfold QueryContext. rewrite Hno, Hconv.
  destruct (as_Queryer (Parent c)) as [f|] eqn:Hf; [clear Hleg|congruence].
  cbn [implements negb andb].
  run; cbn; split; try split; congruence.
Qed.

(** The cancellation check of the two fallbacks: a context that is done
    when the legacy call would be made stops the call. *)
Lemma ExecContext_fallback_cancelled c ctx query args dargs e s :
  as_ExecerContext (Parent c) = None ->
  namedValueToValue args = (dargs, None) ->
  ctx_Err ctx (st_drv s) = Some e ->
  let r := ExecContext clock formatArgs namedValueToValue c ctx query args s in
  value_of r = (nilResult, Some e) /\
  driver_calls (events_of r) = [] /\
  st_drv (state_of r) = st_drv s.
Proof.
  intros Hno Hconv Hctx r. subst r. unfold ExecContext. rewrite Hno, Hconv.
  run; cbn; repeat split; congruence.
Qed.

Lemma QueryContext_fallback_cancelled c ctx query args dargs e s :
  as_QueryerContext (Parent c) = None ->
  as_Queryer (Parent c) <> None ->
  namedValueToValue args = (dargs, None) ->
  ctx_Err ctx (st_drv s) = Some e ->
  let r := QueryContext clock formatArgs namedValueToValue c ctx query args s in
  value_of r = (nilRows, Some e) /\
  driver_calls (events_of r) = [] /\
  st_drv (state_of r) = st_drv s.
Proof.
  intros Hno Hleg Hconv Hctx r. subst r. unfold QueryContext. rewrite Hno, Hconv.
  destruct (as_Queryer (Parent c)) as [f|] eqn:Hf; [clear Hleg|congruence].
  cbn [implements negb andb].
  run; cbn; repeat split; congruence.
Qed.

(** A failed argument conversion ends the fallback before any call. *)
Lemma ExecContext_fallback_conversion_error c ctx query args dargs e s :
  as_ExecerContext (Parent c) = None ->
  namedValueToValue args = (dargs, Some e) ->
  let r := ExecContext clock formatArgs namedValueToValue c ctx query args s in
  value_of r = (nilResult, Some e) /\
  driver_calls (events_of r) = [] /\
  st_drv (state_of r) = st_drv s.
Proof.
  intros Hno Hconv r. subst r. unfold ExecContext. rewrite Hno, Hconv.
  run; cbn; repeat split; congruence.
Qed.

Lemma QueryContext_fallback_conversion_error c ctx query args dargs e s :
  as_QueryerContext (Parent c) = None ->
  as_Queryer (Parent c) <> None ->
  namedValueToValue args = (dargs, Some e) ->
  let r := QueryContext clock formatArgs namedValueToValue c ctx query args s in
  value_of r = (nilRows, Some e) /\
  driver_calls (events_of r) = [] /\
  st_drv (state_of r) = st_drv s.
Proof.
  intros Hno Hleg Hconv r. subst r. unfold QueryContext. rewrite Hno, Hconv.
  destruct (as_Queryer (Parent c)) as [f|] eqn:Hf; [clear Hleg|congruence].
  cbn [implements negb andb].
  run; cbn; repeat split; congruence.
Qed.

(** C6: on a connection with only the legacy exec (query) interface, a
    context that is not done and arguments that convert, [ExecContext]
    ([QueryContext]) has the outcome of the legacy call made directly with
    the converted values: that one call is made, its error is returned on
    failure, and on success the wrapper around its result (rows); it is the
    outcome of the decorator's own legacy method.  When the conversion
    fails, its error is returned and no call is made. *)
Theorem legacy_fallback_equals_legacy_call c ctx query args s :
  (forall f dargs res err ds,
     as_ExecerContext (Parent c) = None ->
     as_Execer (Parent c) = Some f ->
     namedValueToValue args = (dargs, None) ->
     ctx_Err ctx (st_drv s) = None ->
     f query dargs (st_drv s) = (res, err, ds) ->
     let r := ExecContext clock formatArgs namedValueToValue c ctx query args s in
     (err = None -> value_of r = (wrappedResult (wc_opts c) None res, None)) /\
     (err <> None -> value_of r = (nilResult, err)) /\
     value_of r = value_of (Exec c query dargs s) /\
     driver_calls (events_of r) = [CallExec query dargs] /\
     st_drv (state_of r) = ds) /\
  (forall f dargs e,
     as_ExecerContext (Parent c) = None ->
     as_Execer (Parent c) = Some f ->
     namedValueToValue args = (dargs, Some e) ->
     let r := ExecContext clock formatArgs namedValueToValue c ctx query args s in
     value_of r = (nilResult, Some e) /\
     driver_calls (events_of r) = [] /\
     st_drv (state_of r) = st_drv s) /\
  (forall f dargs rows err ds,
     as_QueryerContext (Parent c) = None ->
     as_Queryer (Parent c) = Some f ->
     namedValueToValue args = (dargs, None) ->
     ctx_Err ctx (st_drv s) = None ->
     f query dargs (st_drv s) = (rows, err, ds) ->
     let r := QueryContext clock formatArgs namedValueToValue c ctx query args s in
     (err = None -> value_of r = (wrappedRows (wc_opts c) None rows, None)) /\
     (err <> None -> value_of r = (nilRows, err)) /\
     value_of r = value_of (Query c query dargs s) /\
     driver_calls (events_of r) = [CallQuery query dargs] /\
     st_drv (state_of r) = ds) /\
  (forall f dargs e,
     as_QueryerContext (Parent c) = None ->
     as_Queryer (Parent c) = Some f ->
     namedValueToValue args = (dargs, Some e) ->
     let r := QueryContext clock formatArgs namedValueToValue c ctx query args s in
     value_of r = (nilRows, Some e) /\
     driver_calls (events_of r) = [] /\
     st_drv (state_of r) = st_drv s).
Proof.
  split; [|split; [|split]].
  - intros f dargs res err ds Hno Hf Hconv Hctx E r.
    destruct (ExecContext_fallback_converted c ctx query args dargs s Hno Hconv Hctx)
      as [Hv [Hc Hd]].
    fold r in Hv, Hc, Hd. rewrite Hv, Hc, Hd.
    rewrite (Exec_legacy c query dargs s f res err ds Hf E).
    unfold_obs; cbn. destruct err; repeat split; congruence.
  - intros f dargs e Hno _ Hconv.
    apply (ExecContext_fallback_conversion_error c ctx query args dargs e s Hno Hconv).
  - intros f dargs rows err ds Hno Hf Hconv Hctx E r.
    assert (Hleg : as_Queryer (Parent c) <> None) by congruence.
    destruct (QueryContext_fallback_converted c ctx query args dargs s
                Hno Hleg Hconv Hctx) as [Hv [Hc Hd]].
    fold r in Hv, Hc, Hd. rewrite Hv, Hc, Hd.
    rewrite (Query_legacy c query dargs s f rows err ds Hf E).
    unfold_obs; cbn. destruct err; repeat split; congruence.
  - intros f dargs e Hno Hf Hconv.
    assert (Hleg : as_Queryer (Parent c) <> None) by congruence.
    apply (QueryContext_fallback_conversion_error c ctx query args dargs e s
             Hno Hleg Hconv).
Qed.

(** ** Delegation

    Which call each method delegates to, and that the driver's answer to it
    is the error returned.  None of this depends on the options. *)

Lemma Prepare_delegates c query s :
  delegates_to snd (Parent c) (CallPrepare query) s (Prepare c query s).
Proof. delegation. Qed.

Lemma Close_delegates c s :
  delegates_to id (Parent c) CallClose s (Close c s).
Proof. delegation. Qed.

Lemma Begin_delegates c s :
  delegates_to snd (Parent c) CallBegin s (Begin c s).
Proof. delegation. Qed.

Lemma BeginTx_delegates c ctx txopts s :
  delegates_to snd (Parent c)
    (if implements (as_ConnBeginTx (Parent c))
     then CallBeginTx ctx txopts else CallBegin)
    s (BeginTx clock c ctx txopts s).
Proof. delegation. Qed.

Lemma PrepareContext_delegates c ctx query s :
  delegates_to snd (Parent c)
    (if implements (as_ConnPrepareContext (Parent c))
     then CallPrepareContext ctx query else CallPrepare query)
    s (PrepareContext clock c ctx query s).
Proof. delegation. Qed.

Lemma Exec_delegates c query dargs s :
  implements (as_Execer (Parent c)) = true ->
  delegates_to snd (Parent c) (CallExec query dargs) s (Exec c query dargs s).
Proof. delegation. Qed.

Lemma ExecContext_delegates_modern c ctx query args s :
  implements (as_ExecerContext (Parent c)) = true ->
  delegates_to snd (Parent c) (CallExecContext ctx query args) s
    (ExecContext clock formatArgs namedValueToValue c ctx query args s).
Proof. delegation. Qed.

Lemma ExecContext_delegates_legacy c ctx query args s dargs :
  implements (as_ExecerContext (Parent c)) = false ->
  implements (as_Execer (Parent c)) = true ->
  namedValueToValue args = (dargs, None) ->
  ctx_Err ctx (st_drv s) = None ->
  delegates_to snd (Parent c) (CallExec query dargs) s
    (ExecContext clock formatArgs namedValueToValue c ctx query args s).
Proof. delegation. Qed.

Lemma Ping_delegates c ctx s :
  implements (as_Pinger (Parent c)) = true ->
  delegates_to id (Parent c) (CallPing ctx) s (Ping clock c ctx s).
Proof. delegation. Qed.

Lemma Query_delegates c query dargs s :
  implements (as_Queryer (Parent c)) = true ->
  delegates_to snd (Parent c) (CallQuery query dargs) s (Query c query dargs s).
Proof. delegation. Qed.

Lemma QueryContext_delegates_modern c ctx query args s :
  implements (as_QueryerContext (Parent c)) = true ->
  delegates_to snd (Parent c) (CallQueryContext ctx query args) s
    (QueryContext clock formatArgs namedValueToValue c ctx query args s).
Proof. delegation. Qed.

Lemma QueryContext_delegates_legacy c ctx query args s dargs :
  implements (as_QueryerContext (Parent c)) = false ->
  implements (as_Queryer (Parent c)) = true ->
  namedValueToValue args = (dargs, None) ->
  ctx_Err ctx (st_drv s) = None ->
  delegates_to snd (Parent c) (CallQuery query dargs) s
    (QueryContext clock formatArgs namedValueToValue c ctx query args s).
Proof. delegation. Qed.

(** ** Exclusion of an operation kind *)

(** C3: when the kind of an instrumented operation is in the exclusion
    set, the call creates no span and emits no log record, and it delegates
    and answers as the same call does on a decorator [c'] of the same
    connection under any other options, in particular one that does not
    exclude the kind: the same driver calls, the same driver state, the
    same error, and the same artefact, each decorator stamping its own
    options on the wrapper.  The delegated call still happens and its error
    still propagates: [BeginTx], [PrepareContext] and [Ping] with a pinger
    make their one driver call and return the error the driver gives, nil
    included; so do [ExecContext] and [QueryContext] whenever the
    connection has the context-aware interface, or has the legacy one and
    the fallback reaches it (arguments converted, context not done). *)
Theorem excluded_op_only_drops_instrumentation c c' ctx s :
  Parent c = Parent c' ->
  (forall txopts,
     hasOpExcluded (wc_opts c) OpSQLTxBegin = true ->
     let r := BeginTx clock c ctx txopts s in
     let r' := BeginTx clock c' ctx txopts s in
     no_span r /\ no_log r /\ same_delegation r r' /\
     snd (value_of r) = snd (value_of r') /\
     fst (value_of r) = Tx_with_opts (wc_opts c) (fst (value_of r')) /\
     delegates_to snd (Parent c)
       (if implements (as_ConnBeginTx (Parent c))
        then CallBeginTx ctx txopts else CallBegin) s r) /\
  (forall query,
     hasOpExcluded (wc_opts c) OpSQLPrepare = true ->
     let r := PrepareContext clock c ctx query s in
     let r' := PrepareContext clock c' ctx query s in
     no_span r /\ no_log r /\ same_delegation r r' /\
     snd (value_of r) = snd (value_of r') /\
     fst (value_of r) = Stmt_with_opts (wc_opts c) (fst (value_of r')) /\
     delegates_to snd (Parent c)
       (if implements (as_ConnPrepareContext (Parent c))
        then CallPrepareContext ctx query else CallPrepare query) s r) /\
  (forall query args,
     hasOpExcluded (wc_opts c) OpSQLConnExec = true ->
     let r := ExecContext clock formatArgs namedValueToValue c ctx query args s in
     let r' := ExecContext clock formatArgs namedValueToValue c' ctx query args s in
     no_span r /\ no_log r /\ same_delegation r r' /\
     snd (value_of r) = snd (value_of r') /\
     fst (value_of r) = Result_with_opts (wc_opts c) (fst (value_of r')) /\
     (implements (as_ExecerContext (Parent c)) = true ->
      delegates_to snd (Parent c) (CallExecContext ctx query args) s r) /\
     (forall dargs,
        implements (as_ExecerContext (Parent c)) = false ->
        implements (as_Execer (Parent c)) = true ->
        namedValueToValue args = (dargs, None) ->
        ctx_Err ctx (st_drv s) = None ->
        delegates_to snd (Parent c) (CallExec query dargs) s r)) /\
  (forall query args,
     hasOpExcluded (wc_opts c) OpSQLConnQuery = true ->
     let r := QueryContext clock formatArgs namedValueToValue c ctx query args s in
     let r' := QueryContext clock formatArgs namedValueToValue c' ctx query args s in
     no_span r /\ no_log r /\ same_delegation r r' /\
     snd (value_of r) = snd (value_of r') /\
     fst (value_of r) = Rows_with_opts (wc_opts c) (fst (value_of r')) /\
     (implements (as_QueryerContext (Parent c)) = true ->
      delegates_to snd (Parent c) (CallQueryContext ctx query args) s r) /\
     (forall dargs,
        implements (as_QueryerContext (Parent c)) = false ->
        implements (as_Queryer (Parent c)) = true ->
        namedValueToValue args = (dargs, None) ->
        ctx_Err ctx (st_drv s) = None ->
        delegates_to snd (Parent c) (CallQuery query dargs) s r)) /\
  (as_Pinger (Parent c) <> None ->
   hasOpExcluded (wc_opts c) OpSQLPing = true ->
     let r := Ping clock c ctx s in
     let r' := Ping clock c' ctx s in
     no_span r /\ no_log r /\ same_delegation r r' /\
     value_of r = value_of r' /\
     delegates_to id (Parent c) (CallPing ctx) s r).
Proof.
  intros HP.
  pose proof (BeginTx_delegates c ctx) as DB.
  pose proof (PrepareContext_delegates c ctx) as DP.
  pose proof (ExecContext_delegates_modern c ctx) as DEm.
  pose proof (ExecContext_delegates_legacy c ctx) as DEl.
  pose proof (QueryContext_delegates_modern c ctx) as DQm.
  pose proof (QueryContext_delegates_legacy c ctx) as DQl.
  pose proof (Ping_delegates c ctx s) as DPi.
  same_parent c c' HP.
  split; [|split; [|split; [|split]]].
  - intros txopts Hex.
    do 5 (split; [unfold BeginTx; cbn [Parent wc_opts]; rewrite Hex; cbn [negb];
                  run; cbn; repeat split; congruence|]).
    apply DB.
  - intros query Hex.
    do 5 (split; [unfold PrepareContext; cbn [Parent wc_opts]; rewrite Hex; cbn [negb];
                  run; cbn; repeat split; congruence|]).
    apply DP.
  - intros query args Hex.
    do 5 (split; [unfold ExecContext; cbn [Parent wc_opts]; rewrite Hex; cbn [negb];
                  run; cbn; repeat split; congruence|]).
    split; [apply DEm | intros dargs; apply DEl].
  - intros query args Hex.
    do 5 (split; [unfold QueryContext; cbn [Parent wc_opts]; rewrite Hex; cbn [negb];
                  run; cbn; repeat split; congruence|]).
    split; [apply DQm | intros dargs; apply DQl].
  - intros Hping Hex.
    destruct (as_Pinger p) as [pinger|] eqn:Hp; [|congruence].
    do 4 (split; [unfold Ping; cbn [Parent wc_opts]; rewrite Hex, Hp; cbn [negb];
                  run; cbn; repeat split; congruence|]).
    apply DPi. reflexivity.
Qed.

(** ** Verbatim forwarding *)

Lemma Prepare_verbatim c query s :
  forwards_verbatim snd (Parent c) [CallPrepare query] s (Prepare c query s).
Proof. verbatim. Qed.

Lemma Close_verbatim c s :
  forwards_verbatim id (Parent c) [CallClose] s (Close c s).
Proof. verbatim. Qed.

Lemma Begin_verbatim c s :
  forwards_verbatim snd (Parent c) [CallBegin] s (Begin c s).
Proof. verbatim. Qed.

Lemma BeginTx_verbatim c ctx txopts s :
  forwards_verbatim snd (Parent c) [CallBeginTx ctx txopts; CallBegin] s
    (BeginTx clock c ctx txopts s).
Proof. verbatim. Qed.

Lemma PrepareContext_verbatim c ctx query s :
  forwards_verbatim snd (Parent c) [CallPrepareContext ctx query; CallPrepare query] s
    (PrepareContext clock c ctx query s).
Proof. verbatim. Qed.

Lemma Exec_verbatim c query dargs s :
  forwards_verbatim snd (Parent c) [CallExec query dargs] s (Exec c query dargs s).
Proof. verbatim. Qed.

Lemma ExecContext_verbatim c ctx query args s :
  forwards_verbatim snd (Parent c)
    [CallExecContext ctx query args; CallExec query (fst (namedValueToValue args))] s
    (ExecContext clock formatArgs namedValueToValue c ctx query args s).
Proof. verbatim. Qed.

Lemma Ping_verbatim c ctx s :
  forwards_verbatim id (Parent c) [CallPing ctx] s (Ping clock c ctx s).
Proof. verbatim. Qed.

Lemma Query_verbatim c query dargs s :
  forwards_verbatim snd (Parent c) [CallQuery query dargs] s (Query c query dargs s).
Proof. verbatim. Qed.

Lemma QueryContext_verbatim c ctx query args s :
  forwards_verbatim snd (Parent c)
    [CallQueryContext ctx query args; CallQuery query (fst (namedValueToValue args))] s
    (QueryContext clock formatArgs namedValueToValue c ctx query args s).
Proof. verbatim. Qed.

(** C7: every method forwards verbatim.  It calls the wrapped connection
    at most once, so nothing is retried; the call carries the context, the
    query text and the arguments the method received, the only translation
    being [namedValueToValue] on the exec and query fallbacks; and when the
    wrapped connection answers with an error, the method returns that very
    error value.  Whenever the method has a call to forward to, it does
    forward: [Prepare], [Close] and [Begin] always make their call,
    [BeginTx] and [PrepareContext] make the context-aware call or else the
    legacy one, the others make theirs when the connection has the
    interface (on the fallback: when the arguments convert and the context
    is not done); and what the method returns as error is exactly the
    driver's answer to that call, nil when the driver gave none. *)
Theorem delegated_errors_and_arguments_verbatim
    c ctx (txopts : TxOptions) query args dargs s :
  forwards_verbatim snd (Parent c) [CallPrepare query] s (Prepare c query s) /\
  forwards_verbatim id (Parent c) [CallClose] s (Close c s) /\
  forwards_verbatim snd (Parent c) [CallBegin] s (Begin c s) /\
  forwards_verbatim snd (Parent c) [CallBeginTx ctx txopts; CallBegin] s
    (BeginTx clock c ctx txopts s) /\
  forwards_verbatim snd (Parent c)
    [CallPrepareContext ctx query; CallPrepare query] s
    (PrepareContext clock c ctx query s) /\
  forwards_verbatim snd (Parent c) [CallExec query dargs] s (Exec c query dargs s) /\
  forwards_verbatim snd (Parent c)
    [CallExecContext ctx query args; CallExec query (fst (namedValueToValue args))] s
    (ExecContext clock formatArgs namedValueToValue c ctx query args s) /\
  forwards_verbatim id (Parent c) [CallPing ctx] s (Ping clock c ctx s) /\
  forwards_verbatim snd (Parent c) [CallQuery query dargs] s (Query c query dargs s) /\
  forwards_verbatim snd (Parent c)
    [CallQueryContext ctx query args; CallQuery query (fst (namedValueToValue args))] s
    (QueryContext clock formatArgs namedValueToValue c ctx query args s) /\
  delegates_to snd (Parent c) (CallPrepare query) s (Prepare c query s) /\
  delegates_to id (Parent c) CallClose s (Close c s) /\
  delegates_to snd (Parent c) CallBegin s (Begin c s) /\
  delegates_to snd (Parent c)
    (if implements (as_ConnBeginTx (Parent c))
     then CallBeginTx ctx txopts else CallBegin)
    s (BeginTx clock c ctx txopts s) /\
  delegates_to snd (Parent c)
    (if implements (as_ConnPrepareContext (Parent c))
     then CallPrepareContext ctx query else CallPrepare query)
    s (PrepareContext clock c ctx query s) /\
  (implements (as_Execer (Parent c)) = true ->
   delegates_to snd (Parent c) (CallExec query dargs) s (Exec c query dargs s)) /\
  (implements (as_ExecerContext (Parent c)) = true ->
   delegates_to snd (Parent c) (CallExecContext ctx query args) s
     (ExecContext clock formatArgs namedValueToValue c ctx query args s)) /\
  (forall converted,
     implements (as_ExecerContext (Parent c)) = false ->
     implements (as_Execer (Parent c)) = true ->
     namedValueToValue args = (converted, None) ->
     ctx_Err ctx (st_drv s) = None ->
     delegates_to snd (Parent c) (CallExec query converted) s
       (ExecContext clock formatArgs namedValueToValue c ctx query args s)) /\
  (implements (as_Pinger (Parent c)) = true ->
   delegates_to id (Parent c) (CallPing ctx) s (Ping clock c ctx s)) /\
  (implements (as_Queryer (Parent c)) = true ->
   delegates_to snd (Parent c) (CallQuery query dargs) s (Query c query dargs s)) /\
  (implements (as_QueryerContext (Parent c)) = true ->
   delegates_to snd (Parent c) (CallQueryContext ctx query args) s
     (QueryContext clock formatArgs namedValueToValue c ctx query args s)) /\
  (forall converted,
     implements (as_QueryerContext (Parent c)) = false ->
     implements (as_Queryer (Parent c)) = true ->
     namedValueToValue args = (converted, None) ->
     ctx_Err ctx (st_drv s) = None ->
     delegates_to snd (Parent c) (CallQuery query converted) s
       (QueryContext clock formatArgs namedValueToValue c ctx query args s)).
Proof.
  repeat match goal with |- _ /\ _ => split end;
    auto using Prepare_verbatim, Close_verbatim, Begin_verbatim, BeginTx_verbatim,
      PrepareContext_verbatim, Exec_verbatim, ExecContext_verbatim, Ping_verbatim,
      Query_verbatim, QueryContext_verbatim,
      Prepare_delegates, Close_delegates, Begin_delegates, BeginTx_delegates,
      PrepareContext_delegates, Exec_delegates, ExecContext_delegates_modern,
      ExecContext_delegates_legacy, Ping_delegates, Query_delegates,
      QueryContext_delegates_modern, QueryContext_delegates_legacy.
Qed.

(** ** Fallbacks without a cancellation check *)

(** The fallbacks of [BeginTx] and [PrepareContext] never consult the
    context: whether it is done or not, the legacy call is made and its
    outcome returned. *)
Lemma BeginTx_fallback_outcome c ctx txopts s tx err ds :
  as_ConnBeginTx (Parent c) = None ->
  Conn_Begin (Parent c) (st_drv s) = (tx, err, ds) ->
  let r := BeginTx clock c ctx txopts s in
  value_of r = match err with
               | Some _ => (nilTx, err)
               | None => (wrappedTx (wc_opts c) (Some ctx) tx, None)
               end /\
  driver_calls (events_of r) = [CallBegin] /\
  st_drv (state_of r) = ds.
Proof.
  intros Hno E r. subst r. unfold BeginTx. rewrite Hno.
  run; cbn; repeat split; congruence.
Qed.

Lemma PrepareContext_fallback_outcome c ctx query s stmt err ds :
  as_ConnPrepareContext (Parent c) = None ->
  Conn_Prepare (Parent c) query (st_drv s) = (stmt, err, ds) ->
  let r := PrepareContext clock c ctx query s in
  value_of r = match err with
               | Some _ => (nilStmt, err)
               | None => (wrappedStmt (wc_opts c) None query stmt, None)
               end /\
  driver_calls (events_of r) = [CallPrepare query] /\
  st_drv (state_of r) = ds.
Proof.
  intros Hno E r. subst r. unfold PrepareContext. rewrite Hno.
  run; cbn; repeat split; congruence.
Qed.

(** ** Exec and query on a connection with neither interface *)

(** X4: [QueryContext] on a connection with neither query interface leaves
    by its quick skip path before anything else: it returns
    [driver.ErrSkip] and a nil artefact, calls neither the driver, the
    tracer, the logger nor the clock, and does not look at the options, the
    context or the arguments. *)
Lemma QueryContext_quick_skip c ctx query args s :
  as_QueryerContext (Parent c) = None ->
  as_Queryer (Parent c) = None ->
  QueryContext clock formatArgs namedValueToValue c ctx query args s =
    (nilRows, Some ErrSkip, s, []).
Proof.
  intros H1 H2. unfold QueryContext. rewrite H1, H2. reflexivity.
Qed.

(** [ExecContext] has no such path: unless the kind is excluded, a span is
    opened and a log record written. *)
Lemma ExecContext_unsupported_instrumented c ctx query args s :
  as_ExecerContext (Parent c) = None ->
  as_Execer (Parent c) = None ->
  hasOpExcluded (wc_opts c) OpSQLConnExec = false ->
  let r := ExecContext clock formatArgs namedValueToValue c ctx query args s in
  existsb is_span_creation (events_of r) = true /\
  existsb is_log_event (events_of r) = true /\
  driver_calls (events_of r) = [].
Proof.
  intros H1 H2 Hex r. subst r. unfold ExecContext. rewrite H1, Hex.
  unfold Exec. rewrite H2.
  run; cbn; repeat split; congruence.
Qed.

(** * Further properties of the methods *)

(** ** The span of an instrumented call *)

(** X1: when its kind is not excluded, an instrumented method opens exactly
    one span, a child of the context's span, before any driver call, and on
    every return path (success, driver error, conversion error, cancelled
    context, [driver.ErrSkip]) sets on it the error it returns and
    finishes it, after the driver call and before the log record.  The
    labels are the component, and for exec and query also the query text
    and, unless [OmitArgs] is set, the rendered arguments. *)
Theorem instrumented_span_lifecycle c ctx s :
  (forall txopts,
     hasOpExcluded (wc_opts c) OpSQLTxBegin = false ->
     span_lifecycle snd (wc_opts c) ctx OpSQLTxBegin
       [("component", "database/sql")] s (BeginTx clock c ctx txopts s)) /\
  (forall query,
     hasOpExcluded (wc_opts c) OpSQLPrepare = false ->
     span_lifecycle snd (wc_opts c) ctx OpSQLPrepare
       [("component", "database/sql")] s (PrepareContext clock c ctx query s)) /\
  (forall query args,
     hasOpExcluded (wc_opts c) OpSQLConnExec = false ->
     span_lifecycle snd (wc_opts c) ctx OpSQLConnExec
       ([("component", "database/sql"); ("query", query)] ++
        if OmitArgs (wc_opts c) then [] else [("args", formatArgs args)])%list
       s (ExecContext clock formatArgs namedValueToValue c ctx query args s)) /\
  (forall query args,
     hasOpExcluded (wc_opts c) OpSQLConnQuery = false ->
     implements (as_QueryerContext (Parent c)) || implements (as_Queryer (Parent c)) = true ->
     span_lifecycle snd (wc_opts c) ctx OpSQLConnQuery
       ([("component", "database/sql"); ("query", query)] ++
        if OmitArgs (wc_opts c) then [] else [("args", formatArgs args)])%list
       s (QueryContext clock formatArgs namedValueToValue c ctx query args s)) /\
  (hasOpExcluded (wc_opts c) OpSQLPing = false ->
   as_Pinger (Parent c) <> None ->
     span_lifecycle id (wc_opts c) ctx OpSQLPing
       [("component", "database/sql")] s (Ping clock c ctx s)).
Proof.
  unfold span_lifecycle.
  split; [|split; [|split; [|split]]].
  - intros txopts Hex. unfold BeginTx. rewrite Hex.
    run; eexists; (split; [cbn; reflexivity | reflexivity]).
  - intros query Hex. unfold PrepareContext. rewrite Hex.
    run; eexists; (split; [cbn; reflexivity | reflexivity]).
  - intros query args Hex. unfold ExecContext. rewrite Hex.
    run; eexists; (split; [cbn; reflexivity | reflexivity]).
  - intros query args Hex Hcap. unfold QueryContext. rewrite Hex.
    destruct (as_QueryerContext (Parent c)) eqn:HQC;
      destruct (as_Queryer (Parent c)) eqn:HQ;
      cbn [implements negb andb orb] in *; try discriminate;
      unfold Query; rewrite ?HQ;
      run; eexists; (split; [cbn; reflexivity | reflexivity]).
  - intros Hex Hping. unfold Ping. rewrite Hex.
    destruct (as_Pinger (Parent c)); [|congruence]. cbn [negb].
    run; eexists; (split; [cbn; reflexivity | reflexivity]).
Qed.

(** X2: the log record of an instrumented [BeginTx] and [Ping].  Exactly
    one record is written, of the method's kind, to the decorator's logger
    and with the call's context; its [err] is the error returned to the
    caller; the call reads the clock exactly twice and its [duration] is
    the second reading minus the first. *)
Theorem BeginTx_Ping_log_record c ctx s :
  (forall txopts,
     hasOpExcluded (wc_opts c) OpSQLTxBegin = false ->
     let r := BeginTx clock c ctx txopts s in
     List.filter is_log_event (events_of r) =
       [EvLog (Logger (wc_opts c)) ctx OpSQLTxBegin
          [LStr "err"; LErr (snd (value_of r)); LStr "duration";
           LDuration (clock (S (st_ticks s)) - clock (st_ticks s))]] /\
     st_ticks (state_of r) = S (S (st_ticks s))) /\
  (hasOpExcluded (wc_opts c) OpSQLPing = false ->
   as_Pinger (Parent c) <> None ->
     let r := Ping clock c ctx s in
     List.filter is_log_event (events_of r) =
       [EvLog (Logger (wc_opts c)) ctx OpSQLPing
          [LStr "err"; LErr (value_of r); LStr "duration";
           LDuration (clock (S (st_ticks s)) - clock (st_ticks s))]] /\
     st_ticks (state_of r) = S (S (st_ticks s))).
Proof.
  split.
  - intros txopts Hex r. subst r. unfold BeginTx. rewrite Hex.
    run; split; reflexivity.
  - intros Hex Hping r. subst r. unfold Ping. rewrite Hex.
    destruct (as_Pinger (Parent c)); [|congruence]. cbn [negb].
    run; split; reflexivity.
Qed.

(** X8: the rendered arguments reach the tracer only through the [args]
    label of [ExecContext] and [QueryContext], and never when [OmitArgs]
    is set; [BeginTx], [PrepareContext] and [Ping] never set that label. *)
Theorem args_label_never_when_omitted c ctx s :
  (forall query args,
     OmitArgs (wc_opts c) = true ->
     existsb is_args_label
       (events_of (ExecContext clock formatArgs namedValueToValue c ctx query args s)) = false /\
     existsb is_args_label
       (events_of (QueryContext clock formatArgs namedValueToValue c ctx query args s)) = false) /\
  (forall txopts, existsb is_args_label (events_of (BeginTx clock c ctx txopts s)) = false) /\
  (forall query, existsb is_args_label (events_of (PrepareContext clock c ctx query s)) = false) /\
  existsb is_args_label (events_of (Ping clock c ctx s)) = false.
Proof.
  split; [|split; [|split]].
  - intros query args Homit. split.
    + unfold ExecContext. rewrite Homit. run; reflexivity.
    + unfold QueryContext. rewrite Homit. run; reflexivity.
  - intros txopts. run; reflexivity.
  - intros query. run; reflexivity.
  - run; reflexivity.
Qed.

(** ** The order of the checks on the exec and query fallbacks *)

(** X3: without the context-aware interface, [ExecContext] decides in this
    order: a conversion error is returned first, even if the context is
    done; then a done context returns the context's error; in both cases no
    driver call is made.  Otherwise the outcome is that of the decorator's
    legacy [Exec] on the converted values (which is [driver.ErrSkip] when
    the connection has no legacy interface either).  [QueryContext] does
    the same with [Query], once past its quick skip path. *)
Theorem exec_query_fallback_order c ctx query args s :
  (as_ExecerContext (Parent c) = None ->
   let r := ExecContext clock formatArgs namedValueToValue c ctx query args s in
   match snd (namedValueToValue args), ctx_Err ctx (st_drv s) with
   | Some e, _ | None, Some e =>
       value_of r = (nilResult, Some e) /\
       driver_calls (events_of r) = [] /\
       st_drv (state_of r) = st_drv s
   | None, None =>
       value_of r = value_of (Exec c query (fst (namedValueToValue args)) s) /\
       same_delegation r (Exec c query (fst (namedValueToValue args)) s)
   end) /\
  (as_QueryerContext (Parent c) = None ->
   as_Queryer (Parent c) <> None ->
   let r := QueryContext clock formatArgs namedValueToValue c ctx query args s in
   match snd (namedValueToValue args), ctx_Err ctx (st_drv s) with
   | Some e, _ | None, Some e =>
       value_of r = (nilRows, Some e) /\
       driver_calls (events_of r) = [] /\
       st_drv (state_of r) = st_drv s
   | None, None =>
       value_of r = value_of (Query c query (fst (namedValueToValue args)) s) /\
       same_delegation r (Query c query (fst (namedValueToValue args)) s)
   end).
Proof.
  split.
  - intros Hno r.
    destruct (namedValueToValue args) as [dargs [e|]] eqn:Hconv; cbn [fst snd].
    + apply (ExecContext_fallback_conversion_error c ctx query args dargs e s Hno Hconv).
    + destruct (ctx_Err ctx (st_drv s)) as [e|] eqn:Hctx.
      * apply (ExecContext_fallback_cancelled c ctx query args dargs e s Hno Hconv Hctx).
      * apply (ExecContext_fallback_converted c ctx query args dargs s Hno Hconv Hctx).
  - intros Hno Hleg r.
    destruct (namedValueToValue args) as [dargs [e|]] eqn:Hconv; cbn [fst snd].
    + apply (QueryContext_fallback_conversion_error c ctx query args dargs e s
               Hno Hleg Hconv).
    + destruct (ctx_Err ctx (st_drv s)) as [e|] eqn:Hctx.
      * apply (QueryContext_fallback_cancelled c ctx query args dargs e s
                 Hno Hleg Hconv Hctx).
      * apply (QueryContext_fallback_converted c ctx query args dargs s
                 Hno Hleg Hconv Hctx).
Qed.

(** ** What the legacy methods return *)

(** X5: [Prepare] and [Begin] make their one call and wrap its artefact
    with the decorator's options and no context, or return nil and the
    call's error; the query text is kept in the statement wrapper.  [Exec]
    and [Query] do the same when the connection has the legacy interface;
    when it has not, they return [driver.ErrSkip] without calling the
    driver. *)
Theorem legacy_methods_outputs_wrapped c query dargs s :
  (forall stmt err ds,
     Conn_Prepare (Parent c) query (st_drv s) = (stmt, err, ds) ->
     value_of (Prepare c query s) =
       match err with
       | Some _ => (nilStmt, err)
       | None => (wrappedStmt (wc_opts c) None query stmt, None)
       end /\
     events_of (Prepare c query s) = [EvCall (CallPrepare query)] /\
     st_drv (state_of (Prepare c query s)) = ds) /\
  (forall tx err ds,
     Conn_Begin (Parent c) (st_drv s) = (tx, err, ds) ->
     value_of (Begin c s) =
       match err with
       | Some _ => (nilTx, err)
       | None => (wrappedTx (wc_opts c) None tx, None)
       end /\
     events_of (Begin c s) = [EvCall CallBegin] /\
     st_drv (state_of (Begin c s)) = ds) /\
  (forall f res err ds,
     as_Execer (Parent c) = Some f ->
     f query dargs (st_drv s) = (res, err, ds) ->
     value_of (Exec c query dargs s) =
       match err with
       | Some _ => (nilResult, err)
       | None => (wrappedResult (wc_opts c) None res, None)
       end /\
     events_of (Exec c query dargs s) = [EvCall (CallExec query dargs)] /\
     st_drv (state_of (Exec c query dargs s)) = ds) /\
  (as_Execer (Parent c) = None ->
     Exec c query dargs s = (nilResult, Some ErrSkip, s, [])) /\
  (forall f rows err ds,
     as_Queryer (Parent c) = Some f ->
     f query dargs (st_drv s) = (rows, err, ds) ->
     value_of (Query c query dargs s) =
       match err with
       | Some _ => (nilRows, err)
       | None => (wrappedRows (wc_opts c) None rows, None)
       end /\
     events_of (Query c query dargs s) = [EvCall (CallQuery query dargs)] /\
     st_drv (state_of (Query c query dargs s)) = ds) /\
  (as_Queryer (Parent c) = None ->
     Query c query dargs s = (nilRows, Some ErrSkip, s, [])).
Proof.
  split; [|split; [|split; [|split; [|split]]]].
  - intros stmt err ds E. unfold Prepare. unfold_monad; unfold_obs.
    rewrite E. destruct err; cbn; auto.
  - intros tx err ds E. unfold Begin. unfold_monad; unfold_obs.
    rewrite E. destruct err; cbn; auto.
  - intros f res err ds Hf E. rewrite (Exec_legacy c query dargs s f res err ds Hf E).
    unfold_obs; cbn. auto.
  - intros Hno. unfold Exec. rewrite Hno. reflexivity.
  - intros f rows err ds Hf E. rewrite (Query_legacy c query dargs s f rows err ds Hf E).
    unfold_obs; cbn. auto.
  - intros Hno. unfold Query. rewrite Hno. reflexivity.
Qed.

(** ** The fallbacks of [BeginTx] and [PrepareContext] *)

(** X6: without the context-aware interface, [BeginTx] and
    [PrepareContext] have the outcome of the mandatory legacy call, with no
    condition on the context: the one driver call is [Begin], resp.
    [Prepare] with the same query, its error is returned as it is, and on
    success its artefact is wrapped.  The transaction wrapper carries the
    call's context; the statement wrapper does not, since that fallback
    goes through the decorator's own [Prepare], whose value it returns. *)
Theorem begin_prepare_fallback_outcome c ctx s :
  (forall txopts tx err ds,
     as_ConnBeginTx (Parent c) = None ->
     Conn_Begin (Parent c) (st_drv s) = (tx, err, ds) ->
     let r := BeginTx clock c ctx txopts s in
     value_of r = match err with
                  | Some _ => (nilTx, err)
                  | None => (wrappedTx (wc_opts c) (Some ctx) tx, None)
                  end /\
     same_delegation r (Begin c s) /\
     driver_calls (events_of r) = [CallBegin] /\
     st_drv (state_of r) = ds) /\
  (forall query stmt err ds,
     as_ConnPrepareContext (Parent c) = None ->
     Conn_Prepare (Parent c) query (st_drv s) = (stmt, err, ds) ->
     let r := PrepareContext clock c ctx query s in
     value_of r = match err with
                  | Some _ => (nilStmt, err)
                  | None => (wrappedStmt (wc_opts c) None query stmt, None)
                  end /\
     value_of r = value_of (Prepare c query s) /\
     same_delegation r (Prepare c query s) /\
     driver_calls (events_of r) = [CallPrepare query] /\
     st_drv (state_of r) = ds).
Proof.
  split.
  - intros txopts tx err ds Hno E r.
    destruct (BeginTx_fallback_outcome c ctx txopts s tx err ds Hno E) as (Hv & Hc & Hd).
    fold r in Hv, Hc, Hd. unfold same_delegation. rewrite Hv, Hc, Hd.
    unfold Begin. unfold_monad; unfold_obs. rewrite E. destruct err; cbn; auto.
  - intros query stmt err ds Hno E r.
    destruct (PrepareContext_fallback_outcome c ctx query s stmt err ds Hno E)
      as (Hv & Hc & Hd).
    fold r in Hv, Hc, Hd. unfold same_delegation. rewrite Hv, Hc, Hd.
    unfold Prepare. unfold_monad; unfold_obs. rewrite E. destruct err; cbn; auto.
Qed.

(** ** The liveness check with a pinger *)

(** X7: on a connection that is a [driver.Pinger], [Ping] makes exactly one
    call, the pinger's [Ping] with the caller's context, and returns its
    answer, nil or not, whether or not the kind is excluded; with the kind
    excluded that call is all that happens. *)
Theorem Ping_with_pinger_answer c ctx s pinger err ds :
  as_Pinger (Parent c) = Some pinger ->
  pinger ctx (st_drv s) = (err, ds) ->
  let r := Ping clock c ctx s in
  value_of r = err /\
  driver_calls (events_of r) = [CallPing ctx] /\
  st_drv (state_of r) = ds /\
  (hasOpExcluded (wc_opts c) OpSQLPing = true ->
   events_of r = [EvCall (CallPing ctx)] /\
   state_of r = {| st_drv := ds; st_ticks := st_ticks s; st_spans := st_spans s |}).
Proof.
  intros Hp E r. subst r. unfold Ping. rewrite Hp.
  run; cbn; repeat split; try congruence; intros; try discriminate.
Qed.

(** ** The options never reach the driver *)

(** X9: two decorators of the same connection, whatever their options
    (logger, tracer, [OmitArgs], exclusion set), delegate alike and answer
    alike on every context-aware method: the same driver calls with the
    same arguments, the same driver state afterwards, the same error, and
    the same artefact up to the options stamped on the wrapper. *)
Theorem options_never_change_delegation c c' ctx s :
  Parent c = Parent c' ->
  (forall txopts,
     let r := BeginTx clock c ctx txopts s in
     let r' := BeginTx clock c' ctx txopts s in
     same_delegation r r' /\ snd (value_of r) = snd (value_of r') /\
     fst (value_of r) = Tx_with_opts (wc_opts c) (fst (value_of r'))) /\
  (forall query,
     let r := PrepareContext clock c ctx query s in
     let r' := PrepareContext clock c' ctx query s in
     same_delegation r r' /\ snd (value_of r) = snd (value_of r') /\
     fst (value_of r) = Stmt_with_opts (wc_opts c) (fst (value_of r'))) /\
  (forall query args,
     let r := ExecContext clock formatArgs namedValueToValue c ctx query args s in
     let r' := ExecContext clock formatArgs namedValueToValue c' ctx query args s in
     same_delegation r r' /\ snd (value_of r) = snd (value_of r') /\
     fst (value_of r) = Result_with_opts (wc_opts c) (fst (value_of r'))) /\
  (forall query args,
     let r := QueryContext clock formatArgs namedValueToValue c ctx query args s in
     let r' := QueryContext clock formatArgs namedValueToValue c' ctx query args s in
     same_delegation r r' /\ snd (value_of r) = snd (value_of r') /\
     fst (value_of r) = Rows_with_opts (wc_opts c) (fst (value_of r'))) /\
  (let r := Ping clock c ctx s in
   let r' := Ping clock c' ctx s in
   same_delegation r r' /\ value_of r = value_of r').
Proof.
  intros HP. same_parent c c' HP.
  split; [|split; [|split; [|split]]]; intros;
    run; cbn; repeat split; congruence.
Qed.

End Properties.

(** * Runs on the concrete driver *)

Module Runs.
Import Fixture.

(** C1: the cancellation check before the legacy call is missing from two
    of the four fallbacks.  On a connection with only the mandatory methods
    and a context that is already cancelled, [BeginTx] still calls [Begin]
    and [PrepareContext] still calls [Prepare]; both return the wrapped
    artefact and a nil error where the context's error was due. *)
Theorem BeginTx_PrepareContext_fallback_ignore_cancellation :
  ctx_Err cancelled (st_drv start) = Some Canceled /\
  as_ConnBeginTx (Parent (untraced baseConn)) = None /\
  as_ConnPrepareContext (Parent (untraced baseConn)) = None /\
  value_of (BeginTx clock (untraced baseConn) cancelled default_tx start) =
    (wrappedTx trace_none (Some cancelled) (driverTx 0), None) /\
  driver_calls (events_of (BeginTx clock (untraced baseConn) cancelled default_tx start)) =
    [CallBegin] /\
  value_of (PrepareContext clock (untraced baseConn) cancelled "SELECT 1" start) =
    (wrappedStmt trace_none None "SELECT 1" (driverStmt 0), None) /\
  driver_calls (events_of (PrepareContext clock (untraced baseConn) cancelled "SELECT 1" start)) =
    [CallPrepare "SELECT 1"].
Proof. repeat split; vm_compute; reflexivity. Qed.

(** The other two fallbacks do check: same connection class, same
    cancelled context, and the legacy call is not made. *)
Example ExecContext_QueryContext_fallback_check_cancellation :
  value_of (ExecContext clock formatArgs namedValueToValue
              (untraced legacyConn) cancelled "DELETE" [arg (VInt64 3)] start) =
    (nilResult, Some Canceled) /\
  driver_calls (events_of (ExecContext clock formatArgs namedValueToValue
              (untraced legacyConn) cancelled "DELETE" [arg (VInt64 3)] start)) = [] /\
  value_of (QueryContext clock formatArgs namedValueToValue
              (untraced legacyConn) cancelled "SELECT 1" [arg (VInt64 3)] start) =
    (nilRows, Some Canceled) /\
  driver_calls (events_of (QueryContext clock formatArgs namedValueToValue
              (untraced legacyConn) cancelled "SELECT 1" [arg (VInt64 3)] start)) = [].
Proof. repeat split; vm_compute; reflexivity. Qed.

(** C2: on a connection with neither exec interface and an empty exclusion
    set, [ExecContext] returns [driver.ErrSkip] only after it has created a
    span, labelled and finished it and written a log record; with a
    cancelled context it does not even return [driver.ErrSkip].
    [QueryContext] on the same connection returns at once. *)
Theorem ExecContext_unsupported_creates_span :
  as_ExecerContext (Parent (traced baseConn)) = None /\
  as_Execer (Parent (traced baseConn)) = None /\
  ExecContext clock formatArgs namedValueToValue (traced baseConn) background "DELETE" [] start =
    (nilResult, Some ErrSkip,
     {| st_drv := 0%nat; st_ticks := 2; st_spans := 1 |},
     [EvNewChild (ctxSpan 2 background) OpSQLConnExec (childSpan 0);
      EvSetLabel (childSpan 0) "component" "database/sql";
      EvSetLabel (childSpan 0) "query" "DELETE";
      EvSetLabel (childSpan 0) "args" "";
      EvSetError (childSpan 0) (Some ErrSkip);
      EvFinish (childSpan 0);
      EvLog 1 background OpSQLConnExec
        [LStr "err"; LErr (Some ErrSkip); LStr "duration"; LDuration 7]]) /\
  value_of (ExecContext clock formatArgs namedValueToValue
              (traced baseConn) cancelled "DELETE" [] start) =
    (nilResult, Some Canceled) /\
  QueryContext clock formatArgs namedValueToValue (traced baseConn) background "SELECT 1" [] start =
    (nilRows, Some ErrSkip, start, []).
Proof. repeat split; vm_compute; reflexivity. Qed.

(** ** The general statements at concrete inputs *)

Lemma excluded_op_only_drops_instrumentation_witness :
  Parent (untraced modernConn) = Parent (traced modernConn) /\
  hasOpExcluded (wc_opts (untraced modernConn)) OpSQLConnQuery = true /\
  hasOpExcluded (wc_opts (traced modernConn)) OpSQLConnQuery = false /\
  implements (as_QueryerContext (Parent (untraced modernConn))) = true /\
  no_span (QueryContext clock formatArgs namedValueToValue
             (untraced modernConn) background "SELECT 1" [] start) /\
  no_log (QueryContext clock formatArgs namedValueToValue
            (untraced modernConn) background "SELECT 1" [] start) /\
  snd (value_of (QueryContext clock formatArgs namedValueToValue
                   (untraced modernConn) background "SELECT 1" [] start)) =
  snd (value_of (QueryContext clock formatArgs namedValueToValue
                   (traced modernConn) background "SELECT 1" [] start)) /\
  delegates_to snd (Parent (untraced modernConn))
    (CallQueryContext background "SELECT 1" []) start
    (QueryContext clock formatArgs namedValueToValue
       (untraced modernConn) background "SELECT 1" [] start).
Proof.
  split; [reflexivity|]. split; [vm_compute; reflexivity|].
  split; [vm_compute; reflexivity|]. split; [reflexivity|].
  destruct (excluded_op_only_drops_instrumentation clock formatArgs namedValueToValue
              (untraced modernConn) (traced modernConn) background start eq_refl)
    as (_ & _ & _ & HQ & _).
  destruct (HQ "SELECT 1" [] ltac:(vm_compute; reflexivity))
    as (H1 & H2 & _ & H4 & _ & HD & _).
  exact (conj H1 (conj H2 (conj H4 (HD eq_refl)))).
Defined.

Lemma Ping_without_pinger_witness :
  as_Pinger (Parent (untraced legacyConn)) = None /\
  value_of (Ping clock (untraced legacyConn) background start) = None /\
  events_of (Ping clock (untraced legacyConn) background start) =
    [EvLog 1 background OpSQLDummyPing [LStr "duration"; LDuration 0]].
Proof.
  split; [reflexivity|].
  destruct (Ping_without_pinger clock (untraced legacyConn) background start eq_refl)
    as (H1 & H2 & _).
  exact (conj H1 H2).
Defined.

Lemma modern_capability_outputs_wrapped_witness :
  as_ConnBeginTx (Parent (traced modernConn)) = Some modern_BeginTx /\
  modern_BeginTx background serializable_ro (st_drv start) = (driverTx 0, None, 1%nat) /\
  value_of (BeginTx clock (traced modernConn) background serializable_ro start) =
    (wrappedTx trace_all (Some background) (driverTx 0), None) /\
  as_ExecerContext (Parent (traced modernConn)) = Some modern_ExecContext /\
  modern_ExecContext background "" [] (st_drv start) = (nilResult, syntax_error, 1%nat) /\
  value_of (ExecContext clock formatArgs namedValueToValue
              (traced modernConn) background "" [] start) =
    (nilResult, syntax_error).
Proof.
  destruct (modern_capability_outputs_wrapped clock formatArgs namedValueToValue
              (traced modernConn) background start) as (HB & _ & HE & _).
  destruct (HB _ serializable_ro (driverTx 0) None 1%nat eq_refl eq_refl) as (Hok & _).
  destruct (HE _ "" [] nilResult syntax_error 1%nat eq_refl eq_refl) as (_ & Hfail & _).
  split; [reflexivity|]. split; [reflexivity|].
  split; [exact (Hok eq_refl)|].
  split; [reflexivity|]. split; [reflexivity|].
  apply Hfail. discriminate.
Defined.

Lemma legacy_fallback_equals_legacy_call_witness :
  as_QueryerContext (Parent (traced legacyConn)) = None /\
  as_Queryer (Parent (traced legacyConn)) = Some legacy_Query /\
  legacy_Query "SELECT 1" [VInt64 3] (st_drv start) = (driverRows 0, None, 1%nat) /\
  namedValueToValue [arg (VInt64 3)] = ([VInt64 3], None) /\
  ctx_Err background (st_drv start) = None /\
  value_of (QueryContext clock formatArgs namedValueToValue
              (traced legacyConn) background "SELECT 1" [arg (VInt64 3)] start) =
    (wrappedRows trace_all None (driverRows 0), None) /\
  driver_calls (events_of (QueryContext clock formatArgs namedValueToValue
              (traced legacyConn) background "SELECT 1" [arg (VInt64 3)] start)) =
    [CallQuery "SELECT 1" [VInt64 3]].
Proof.
  destruct (legacy_fallback_equals_legacy_call clock formatArgs namedValueToValue
              (traced legacyConn) background "SELECT 1" [arg (VInt64 3)] start)
    as (_ & _ & HQ & _).
  destruct (HQ _ [VInt64 3] (driverRows 0) None 1%nat
              eq_refl eq_refl eq_refl eq_refl eq_refl) as (Hok & _ & _ & Hcalls & _).
  split; [reflexivity|]. split; [reflexivity|]. split; [reflexivity|].
  split; [reflexivity|]. split; [reflexivity|].
  exact (conj (Hok eq_refl) Hcalls).
Defined.

Lemma BeginTx_fallback_discards_TxOptions_witness :
  as_ConnBeginTx (Parent (traced baseConn)) = None /\
  BeginTx clock (traced baseConn) background default_tx start =
  BeginTx clock (traced baseConn) background serializable_ro start.
Proof.
  split; [reflexivity|].
  exact (proj1 (BeginTx_fallback_discards_TxOptions clock (traced baseConn) background
                  default_tx serializable_ro start eq_refl)).
Defined.

Lemma CheckNamedValue_forwards_witness :
  as_NamedValueChecker (Parent (traced baseConn)) = None /\
  value_of (CheckNamedValue (traced baseConn) (named_arg "id" (VInt64 7)) start) =
    (named_arg "id" (VInt64 7), Some ErrSkip).
Proof.
  split; [reflexivity|].
  destruct (CheckNamedValue_forwards (traced baseConn) (named_arg "id" (VInt64 7)) start)
    as (_ & Hnone & _).
  exact (proj1 (Hnone eq_refl)).
Defined.

Lemma delegated_errors_and_arguments_verbatim_witness :
  implements (as_Execer (Parent (traced legacyConn))) = true /\
  driver_error (Parent (traced legacyConn)) (CallExec "" []) (st_drv start) =
    Some syntax_error /\
  delegates_to snd (Parent (traced legacyConn)) (CallExec "" []) start
    (Exec (traced legacyConn) "" [] start) /\
  delegates_to id (Parent (traced legacyConn)) CallClose start
    (Close (traced legacyConn) start).
Proof.
  split; [reflexivity|]. split; [reflexivity|].
  destruct (delegated_errors_and_arguments_verbatim clock formatArgs namedValueToValue
              (traced legacyConn) background default_tx "" [] [] start)
    as (_ & _ & _ & _ & _ & _ & _ & _ & _ & _ & _ & HC & _ & _ & _ & HE & _).
  exact (conj (HE eq_refl) HC).
Defined.

(** ** The further properties at concrete inputs *)

Lemma instrumented_span_lifecycle_witness :
  hasOpExcluded (wc_opts (traced baseConn)) OpSQLConnExec = false /\
  span_lifecycle snd trace_all cancelled OpSQLConnExec
    [("component", "database/sql"); ("query", "DELETE"); ("args", "")] start
    (ExecContext clock formatArgs namedValueToValue
       (traced baseConn) cancelled "DELETE" [arg (VInt64 3)] start).
Proof.
  split; [vm_compute; reflexivity|].
  destruct (instrumented_span_lifecycle clock formatArgs namedValueToValue
              (traced baseConn) cancelled start) as (_ & _ & HE & _).
  exact (HE "DELETE" [arg (VInt64 3)] ltac:(vm_compute; reflexivity)).
Defined.

Lemma BeginTx_Ping_log_record_witness :
  hasOpExcluded (wc_opts (traced modernConn)) OpSQLTxBegin = false /\
  List.filter is_log_event
    (events_of (BeginTx clock (traced modernConn) background default_tx start)) =
    [EvLog 1 background OpSQLTxBegin
       [LStr "err"; LErr None; LStr "duration"; LDuration 7]] /\
  st_ticks (state_of (BeginTx clock (traced modernConn) background default_tx start)) =
    2%nat.
Proof.
  split; [vm_compute; reflexivity|].
  destruct (BeginTx_Ping_log_record clock (traced modernConn) background start)
    as (HB & _).
  exact (HB default_tx ltac:(vm_compute; reflexivity)).
Defined.

Lemma exec_query_fallback_order_witness :
  as_ExecerContext (Parent (traced legacyConn)) = None /\
  snd (namedValueToValue [named_arg "id" (VInt64 7)]) =
    Some (ErrOther "driver does not support the use of Named Parameters") /\
  ctx_Err cancelled (st_drv start) = Some Canceled /\
  value_of (ExecContext clock formatArgs namedValueToValue
              (traced legacyConn) cancelled "DELETE" [named_arg "id" (VInt64 7)] start) =
    (nilResult, Some (ErrOther "driver does not support the use of Named Parameters")) /\
  driver_calls (events_of (ExecContext clock formatArgs namedValueToValue
              (traced legacyConn) cancelled "DELETE" [named_arg "id" (VInt64 7)] start)) = [].
Proof.
  split; [reflexivity|]. split; [reflexivity|]. split; [reflexivity|].
  destruct (exec_query_fallback_order clock formatArgs namedValueToValue
              (traced legacyConn) cancelled "DELETE" [named_arg "id" (VInt64 7)] start)
    as (HE & _).
  destruct (HE eq_refl) as (Hv & Hc & _).
  exact (conj Hv Hc).
Defined.

Lemma QueryContext_quick_skip_witness :
  as_QueryerContext (Parent (traced baseConn)) = None /\
  as_Queryer (Parent (traced baseConn)) = None /\
  QueryContext clock formatArgs namedValueToValue
    (traced baseConn) cancelled "SELECT 1" [named_arg "id" (VInt64 7)] start =
    (nilRows, Some ErrSkip, start, []).
Proof.
  split; [reflexivity|]. split; [reflexivity|].
  exact (QueryContext_quick_skip clock formatArgs namedValueToValue
           (traced baseConn) cancelled "SELECT 1" [named_arg "id" (VInt64 7)] start
           eq_refl eq_refl).
Defined.

Lemma legacy_methods_outputs_wrapped_witness :
  Conn_Prepare (Parent (traced baseConn)) "" (st_drv start) =
    (nilStmt, syntax_error, 1%nat) /\
  value_of (Prepare (traced baseConn) "" start) = (nilStmt, syntax_error) /\
  as_Queryer (Parent (traced legacyConn)) = Some legacy_Query /\
  legacy_Query "SELECT 1" [VInt64 3] (st_drv start) = (driverRows 0, None, 1%nat) /\
  value_of (Query (traced legacyConn) "SELECT 1" [VInt64 3] start) =
    (wrappedRows trace_all None (driverRows 0), None) /\
  as_Execer (Parent (traced baseConn)) = None /\
  Exec (traced baseConn) "DELETE" [] start = (nilResult, Some ErrSkip, start, []).
Proof.
  destruct (legacy_methods_outputs_wrapped (traced baseConn) "" [] start)
    as (HP & _).
  destruct (legacy_methods_outputs_wrapped (traced legacyConn) "SELECT 1" [VInt64 3] start)
    as (_ & _ & _ & _ & HQ & _).
  destruct (legacy_methods_outputs_wrapped (traced baseConn) "DELETE" [] start)
    as (_ & _ & _ & HE & _).
  split; [reflexivity|].
  split; [exact (proj1 (HP nilStmt syntax_error 1%nat eq_refl))|].
  split; [reflexivity|]. split; [reflexivity|].
  split; [exact (proj1 (HQ _ (driverRows 0) None 1%nat eq_refl eq_refl))|].
  split; [reflexivity|].
  exact (HE eq_refl).
Defined.

Lemma begin_prepare_fallback_outcome_witness :
  as_ConnPrepareContext (Parent (traced legacyConn)) = None /\
  Conn_Prepare (Parent (traced legacyConn)) "SELECT 1" (st_drv start) =
    (driverStmt 0, None, 1%nat) /\
  value_of (PrepareContext clock (traced legacyConn) cancelled "SELECT 1" start) =
    (wrappedStmt trace_all None "SELECT 1" (driverStmt 0), None) /\
  as_ConnBeginTx (Parent (traced legacyConn)) = None /\
  Conn_Begin (Parent (traced legacyConn)) (st_drv start) = (driverTx 0, None, 1%nat) /\
  value_of (BeginTx clock (traced legacyConn) cancelled serializable_ro start) =
    (wrappedTx trace_all (Some cancelled) (driverTx 0), None).
Proof.
  destruct (begin_prepare_fallback_outcome clock (traced legacyConn) cancelled start)
    as (HB & HP).
  split; [reflexivity|]. split; [reflexivity|].
  split; [exact (proj1 (HP "SELECT 1" (driverStmt 0) None 1%nat eq_refl eq_refl))|].
  split; [reflexivity|]. split; [reflexivity|].
  exact (proj1 (HB serializable_ro (driverTx 0) None 1%nat eq_refl eq_refl)).
Defined.

Lemma Ping_with_pinger_answer_witness :
  as_Pinger (Parent (untraced modernConn)) = Some (fun _ ds => (None, S ds)) /\
  hasOpExcluded (wc_opts (untraced modernConn)) OpSQLPing = true /\
  value_of (Ping clock (untraced modernConn) background start) = None /\
  events_of (Ping clock (untraced modernConn) background start) =
    [EvCall (CallPing background)].
Proof.
  split; [reflexivity|]. split; [vm_compute; reflexivity|].
  destruct (Ping_with_pinger_answer clock (untraced modernConn) background start
              (fun _ ds => (None, S ds)) None 1%nat eq_refl eq_refl)
    as (Hv & _ & _ & Hex).
  exact (conj Hv (proj1 (Hex ltac:(vm_compute; reflexivity)))).
Defined.

Lemma args_label_never_when_omitted_witness :
  OmitArgs (wc_opts {| wc_opts := {| Logger := 1; Tracer := 2; OmitArgs := true;
                                      excludedOps := ∅ |};
                       Parent := modernConn |}) = true /\
  existsb is_args_label
    (events_of (ExecContext clock formatArgs namedValueToValue
       {| wc_opts := {| Logger := 1; Tracer := 2; OmitArgs := true; excludedOps := ∅ |};
          Parent := modernConn |}
       background "DELETE" [arg (VString "secret")] start)) = false.
Proof.
  split; [reflexivity|].
  destruct (args_label_never_when_omitted clock formatArgs namedValueToValue
       {| wc_opts := {| Logger := 1; Tracer := 2; OmitArgs := true; excludedOps := ∅ |};
          Parent := modernConn |} background start) as (HE & _).
  exact (proj1 (HE "DELETE" [arg (VString "secret")] eq_refl)).
Defined.

Lemma options_never_change_delegation_witness :
  Parent (traced legacyConn) = Parent (untraced legacyConn) /\
  fst (value_of (ExecContext clock formatArgs namedValueToValue
                   (traced legacyConn) background "DELETE" [arg (VInt64 3)] start)) =
  Result_with_opts trace_all
    (fst (value_of (ExecContext clock formatArgs namedValueToValue
                      (untraced legacyConn) background "DELETE" [arg (VInt64 3)] start))).
Proof.
  split; [reflexivity|].
  destruct (options_never_change_delegation clock formatArgs namedValueToValue
              (traced legacyConn) (untraced legacyConn) background start eq_refl)
    as (_ & _ & HE & _).
  exact (proj2 (proj2 (HE "DELETE" [arg (VInt64 3)]))).
Defined.

End Runs.
